(** * Verification of the blinded-routing message service and the
      relying-party DAO of the adapter

    The development embeds [pkg/message/service.go] and
    [pkg/db/relying_parties.go] shallowly.  Go's [(value, error)] returns
    become the sum type [result]; the packages the code links against
    (aries-framework-go's [did], [vdr], [service]; edge-core's [storage];
    [uuid]; [database/sql]) are interfaces: records of methods that step an
    explicit state of the outside world.  The handlers thread a [World]
    made of the transaction store's contents, the outside world, the trace
    of operations performed so far and the log. *)

From Stdlib Require Import ZArith Ascii String List.
From stdpp Require Import base option gmap strings list pretty.

(** ** Go errors *)

(** Package-level error values that are compared by identity. *)
Inductive Sentinel : Type :=
| ErrDuplicateStore   (* storage.ErrDuplicateStore *)
| ErrStoreNotFound    (* storage.ErrStoreNotFound *)
| ErrValueNotFound    (* storage.ErrValueNotFound *)
| ErrNoRows.          (* sql.ErrNoRows *)

#[global] Instance Sentinel_eq_dec : EqDecision Sentinel.
Proof. solve_decision. Defined.

(** An error value: a sentinel, an anonymous error carrying its text
    ([errors.New], or [fmt.Errorf] without the wrapping verb), or
    [fmt.Errorf(prefix + "%w", inner)]. *)
Inductive error : Type :=
| sentinel (s : Sentinel)
| errors_New (text : string)
| fmt_Errorf_w (prefix : string) (inner : error).

Definition Sentinel_text (s : Sentinel) : string :=
  match s with
  | ErrDuplicateStore => "store already exists"
  | ErrStoreNotFound => "store not found"
  | ErrValueNotFound => "store does not have a value associated with this key"
  | ErrNoRows => "sql: no rows in result set"
  end.

(** [err.Error()] *)
Fixpoint Error (err : error) : string :=
  match err with
  | sentinel s => Sentinel_text s
  | errors_New text => text
  | fmt_Errorf_w prefix inner => prefix +:+ Error inner
  end.

(** [errors.Is(err, target)] for a sentinel target: walks the chain of
    wrapped errors. *)
Fixpoint errors_Is (err : error) (target : Sentinel) : bool :=
  match err with
  | sentinel s => bool_decide (s = target)
  | errors_New _ => false
  | fmt_Errorf_w _ inner => errors_Is inner target
  end.

(** Go's [(T, error)] with exactly one side set. *)
Inductive result (A : Type) : Type :=
| Ok (a : A)
| Err (err : error).
Arguments Ok {A} a.
Arguments Err {A} err.

(** [[]byte] and [string] are both byte sequences; the conversions
    [[]byte(s)] and [string(b)] are the identity. *)
Abbreviation bytes := string (only parsing).

Module message.

(** ** Message service constants *)

Definition msgTypeBaseURI : string := "https://trustbloc.dev/blinded-routing/1.0".
Definition didDocReq : string := msgTypeBaseURI +:+ "/diddoc-req".
Definition didDocResp : string := msgTypeBaseURI +:+ "/diddoc-resp".
Definition registerRouteReq : string := msgTypeBaseURI +:+ "/register-route-req".
Definition registerRouteResp : string := msgTypeBaseURI +:+ "/register-route-resp".

Definition txnStoreName : string := "msgsvc_txn".

(** ** Payload types of the message package

    The struct declarations live in a file of the package that is not part
    of the sources at hand; their fields are the ones the composite
    literals and selectors of [service.go] use. *)

(** Modelled from the spec: the [DIDDocRespData] declaration, a record
    with one field holding the raw document bytes. *)
Record DIDDocRespData : Type := { DIDDoc : bytes }.

(** Modelled from the spec: the [DIDDocResp] declaration (id, type tag,
    pointer to the data). *)
Record DIDDocResp : Type :=
  { DIDDocResp_ID : string;
    DIDDocResp_Type : string;
    DIDDocResp_Data : option DIDDocRespData }.

(** Modelled from the spec: the [ConnReqData] declaration; the raw
    document is a slice and may be [nil]. *)
Record ConnReqData : Type := { ConnReqData_DIDDoc : option bytes }.

(** Modelled from the spec: the [ConnReq] declaration; the document is
    nested under a [Data] pointer that may be [nil]. *)
Record ConnReq : Type :=
  { ConnReq_ID : string;
    ConnReq_Type : string;
    ConnReq_Data : option ConnReqData }.

(** Modelled from the spec: the [ConnResp] declaration; the literal in
    [handleConnReq] sets the id and the type tag and nothing else. *)
Record ConnResp : Type :=
  { ConnResp_ID : string;
    ConnResp_Type : string }.

(** Modelled from the spec: the [ErrorRespData] declaration. *)
Record ErrorRespData : Type := { ErrorMsg : string }.

(** Modelled from the spec: the [ErrorResp] declaration. *)
Record ErrorResp : Type :=
  { ErrorResp_ID : string;
    ErrorResp_Type : string;
    ErrorResp_Data : option ErrorRespData }.

(** [service.DIDCommMsgMap] as built by [service.NewDIDCommMsgMap] from one
    of the three response structs. *)
Inductive DIDCommMsgMap : Type :=
| MapDIDDocResp (r : DIDDocResp)
| MapConnResp (r : ConnResp)
| MapErrorResp (r : ErrorResp).

(** Overloading of [service.NewDIDCommMsgMap] on the struct it is given. *)
Class ToMsgMap (A : Type) := NewDIDCommMsgMap : A → DIDCommMsgMap.
#[global] Instance DIDDocResp_ToMsgMap : ToMsgMap DIDDocResp := MapDIDDocResp.
#[global] Instance ConnResp_ToMsgMap : ToMsgMap ConnResp := MapConnResp.
#[global] Instance ErrorResp_ToMsgMap : ToMsgMap ErrorResp := MapErrorResp.

(** The ["@type"] entry of a message map. *)
Definition MsgMap_Type (m : DIDCommMsgMap) : string :=
  match m with
  | MapDIDDocResp r => DIDDocResp_Type r
  | MapConnResp r => ConnResp_Type r
  | MapErrorResp r => ErrorResp_Type r
  end.

(** What a message map carries besides id and type. *)
Inductive Payload : Type :=
| NoPayload
| DocPayload (d : DIDDocRespData)
| ErrPayload (d : ErrorRespData).

Definition MsgMap_Payload (m : DIDCommMsgMap) : Payload :=
  match m with
  | MapDIDDocResp r => from_option DocPayload NoPayload (DIDDocResp_Data r)
  | MapConnResp _ => NoPayload
  | MapErrorResp r => from_option ErrPayload NoPayload (ErrorResp_Data r)
  end.

(** [service.DIDCommMsg]: the inbound envelope, an interface whose methods
    take no argument; [Decode] yields the [ConnReq] it fills in. *)
Record DIDCommMsg : Type :=
  { msg_Type : string;
    msg_ID : string;
    msg_ParentThreadID : string;
    msg_Decode : result ConnReq }.

(** ** The packages the service links against *)

(** The outside world as the service sees it: the state the collaborators
    live in, the identity documents of the [did] package, and the functions
    of the packages that are called directly. *)
Class Platform : Type :=
  { ext : Type;                                   (* state outside the service *)
    Doc : Type;                                   (* did.Doc *)
    Doc_ID : Doc → string;                        (* the ID field *)
    Doc_JSONBytes : Doc → result bytes;           (* the JSONBytes method *)
    did_ParseDocument : bytes → result Doc;       (* did.ParseDocument *)
    uuid_New : ext → string * ext }.              (* uuid.New().String() *)

Section Model.
Context `{P : Platform}.

(** [did.Service], of which only the endpoint is set. *)
Record did_Service : Type := { did_ServiceEndpoint : string }.

(** [vdr.DocOpts], of which only [vdr.WithServices] is used. *)
Inductive DocOpts : Type :=
| WithServices (svc : did_Service).

(** [vdr.Registry], restricted to the method used. *)
Record Registry : Type :=
  { Create : string → list DocOpts → ext → result Doc * ext }.

(** The [DIDExchange] client interface. *)
Record DIDExchange : Type :=
  { CreateConnection : string → Doc → ext → result string * ext }.

(** The [Mediator] client interface; [None] is Go's nil error. *)
Record Mediator : Type :=
  { Register : string → ext → option error * ext }.

(** [service.Messenger], restricted to the method used. *)
Record Messenger : Type :=
  { ReplyTo : string → DIDCommMsgMap → ext → option error * ext }.

(** [storage.Store]: a handle on a keyed store.  The contents of the store
    are part of the [World]; the handle decides whether a [Put] is
    accepted, and whether a [Put] that fails has written the entry before
    it failed (a store that writes and then reports an error does, one
    that checks first does not).  An accepted [Put] overwrites; [Get]
    fails with [storage.ErrValueNotFound] exactly on an absent key (the
    contract of section 4.2 of the specification). *)
Record Store : Type :=
  { Put_refused : string → bytes → ext → option error * ext;
    refused_Put_writes : bool }.

(** [storage.Provider] *)
Record Provider : Type :=
  { CreateStore : string → ext → option error * ext;
    OpenStore : string → ext → result Store * ext }.

(** Modelled from the spec: the message service [newMsgSvc] builds, declared
    in a file of the package that is not among the sources; it pairs a
    name with the message type it accepts (the message-type registration
    of section 1), the channel apart. *)
Record MsgSvc : Type := { svc_name : string; svc_type : string }.
Definition newMsgSvc (name msgType : string) : MsgSvc :=
  {| svc_name := name; svc_type := msgType |}.

(** [msghandler.Registrar], restricted to the method used. *)
Record Registrar : Type :=
  { Registrar_Register : list MsgSvc → ext → option error * ext }.

(** [Config] *)
Record Config : Type :=
  { DIDExchangeClient : DIDExchange;
    MediatorClient : Mediator;
    ServiceEndpoint : string;
    AriesMessenger : Messenger;
    MsgRegistrar : Registrar;
    VDRIRegistry : Registry;
    TransientStore : Provider }.

(** [Service] *)
Record Service : Type :=
  { didExchange : DIDExchange;
    mediator : Mediator;
    messenger : Messenger;
    vdriRegistry : Registry;
    endpoint : string;
    tStore : Store }.

(** ** The state the handlers run in *)

(** One operation performed on a collaborator or on a value of a linked
    package, with its arguments. *)
Inductive Op : Type :=
| OpCreate (method : string) (opts : list DocOpts)
| OpPut (k : string) (v : bytes)
| OpJSONBytes (d : Doc)
| OpDecode (msgID : string)
| OpParseDocument (b : bytes)
| OpGet (k : string)
| OpCreateConnection (myDID : string) (theirDID : Doc)
| OpRegister (connectionID : string)
| OpReplyTo (msgID : string) (m : DIDCommMsgMap)
| OpCreateStore (name : string)
| OpOpenStore (name : string)
| OpRegisterMsgSvc (svcs : list MsgSvc).

Inductive Level : Type := LevelError | LevelInfo.

Record World : Type :=
  { txn : gmap string bytes;     (* contents of the transaction store *)
    outside : ext;               (* the collaborators' state *)
    trace : list Op;             (* operations so far, oldest first *)
    logs : list (Level * string) (* the logger's output, oldest first *) }.

(** Computations over the world. *)
Record Go (A : Type) : Type := MkGo { run : World → A * World }.
Arguments MkGo {A} run.
Arguments run {A} g w.

#[global] Instance Go_ret : MRet Go := λ A a, MkGo (λ w, (a, w)).
#[global] Instance Go_bind : MBind Go :=
  λ A B k c, MkGo (λ w, let '(a, w') := run c w in run (k a) w').

(** Appends an operation to the trace. *)
Definition record (op : Op) : Go unit :=
  MkGo (λ w, (tt, {| txn := txn w; outside := outside w;
                     trace := trace w ++ [op]; logs := logs w |})).

(** Runs a collaborator's method on the outside world. *)
Definition call {A} (f : ext → A * ext) : Go A :=
  MkGo (λ w, let '(a, e) := f (outside w) in
             (a, {| txn := txn w; outside := e;
                    trace := trace w; logs := logs w |})).

(** The entry [v] written under [k]. *)
Definition Store_write (k : string) (v : bytes) : Go unit :=
  MkGo (λ w, (tt, {| txn := <[k:=v]> (txn w); outside := outside w;
                     trace := trace w; logs := logs w |})).

(** [Put] on the store behind a handle. *)
Definition Store_Put (s : Store) (k : string) (v : bytes) : Go (option error) :=
  record (OpPut k v);;
  err ← call (Put_refused s k v);
  match err with
  | Some err =>
    (if refused_Put_writes s then Store_write k v else mret tt);;
    mret (Some err)
  | None => Store_write k v;; mret None
  end.

(** [Get] on the store behind a handle. *)
Definition Store_Get (s : Store) (k : string) : Go (result bytes) :=
  record (OpGet k);;
  MkGo (λ w, (match txn w !! k with
              | Some v => Ok v
              | None => Err (sentinel ErrValueNotFound)
              end, w)).

(** [logger.Errorf] and [logger.Infof], the text already formatted. *)
Definition logger_Errorf (text : string) : Go unit :=
  MkGo (λ w, (tt, {| txn := txn w; outside := outside w; trace := trace w;
                     logs := logs w ++ [(LevelError, text)] |})).
Definition logger_Infof (text : string) : Go unit :=
  MkGo (λ w, (tt, {| txn := txn w; outside := outside w; trace := trace w;
                     logs := logs w ++ [(LevelInfo, text)] |})).

End Model.

Arguments MkGo {P A} run.
Arguments run {P A} g w.


(** ** The handlers *)

Section Handlers.
Context `{P : Platform}.

(** [(o *Service) handleDIDDocReq] *)
Definition handleDIDDocReq (o : Service) (msg : DIDCommMsg)
  : Go (result DIDCommMsgMap) :=
  (* create peer DID *)
  let opts := [WithServices {| did_ServiceEndpoint := endpoint o |}] in
  record (OpCreate "peer" opts);;
  r ← call (Create (vdriRegistry o) "peer" opts);
  match r with
  | Err err => mret (Err (fmt_Errorf_w "create new peer did : " err))
  | Ok newDidDoc =>
    err ← Store_Put (tStore o) (msg_ID msg) (Doc_ID newDidDoc);
    match err with
    | Some err => mret (Err (fmt_Errorf_w "save txn data : " err))
    | None =>
      record (OpJSONBytes newDidDoc);;
      match Doc_JSONBytes newDidDoc with
      | Err err => mret (Err (fmt_Errorf_w "marshal did doc : " err))
      | Ok docBytes =>
        (* send the did doc *)
        id ← call uuid_New;
        mret (Ok (NewDIDCommMsgMap
          {| DIDDocResp_ID := id;
             DIDDocResp_Type := didDocResp;
             DIDDocResp_Data := Some {| DIDDoc := docBytes |} |}))
      end
    end
  end.

(** [(o *Service) handleConnReq] *)
Definition handleConnReq (o : Service) (msg : DIDCommMsg)
  : Go (result DIDCommMsgMap) :=
  record (OpDecode (msg_ID msg));;
  match msg_Decode msg with
  | Err err => mret (Err (fmt_Errorf_w "parse didcomm message : " err))
  | Ok pMsg =>
    if decide (msg_ParentThreadID msg = "")
    then mret (Err (errors_New "parent thread id mandatory"))
    else
      match ConnReq_Data pMsg with
      | None => mret (Err (errors_New "did document mandatory"))
      | Some data =>
        match ConnReqData_DIDDoc data with
        | None => mret (Err (errors_New "did document mandatory"))
        | Some raw =>
          record (OpParseDocument raw);;
          match did_ParseDocument raw with
          | Err err => mret (Err (fmt_Errorf_w "parse did doc : " err))
          | Ok didDoc =>
            r ← Store_Get (tStore o) (msg_ParentThreadID msg);
            match r with
            | Err err => mret (Err (fmt_Errorf_w "fetch txn data : " err))
            | Ok txnID =>
              record (OpCreateConnection txnID didDoc);;
              r ← call (CreateConnection (didExchange o) txnID didDoc);
              match r with
              | Err err => mret (Err (fmt_Errorf_w "create connection : " err))
              | Ok connID =>
                record (OpRegister connID);;
                err ← call (Register (mediator o) connID);
                match err with
                | Some err =>
                  mret (Err (fmt_Errorf_w "route registration : " err))
                | None =>
                  id ← call uuid_New;
                  mret (Ok (NewDIDCommMsgMap
                    {| ConnResp_ID := id;
                       ConnResp_Type := registerRouteResp |}))
                end
              end
            end
          end
        end
      end
  end.

(** The second half of [getTxnStore], reached when the creation succeeded
    or failed with a duplicate. *)
Definition getTxnStore_open (prov : Provider) : Go (result Store) :=
  record (OpOpenStore txnStoreName);;
  r ← call (OpenStore prov txnStoreName);
  match r with
  | Err err => mret (Err err)
  | Ok txnStore => mret (Ok txnStore)
  end.

(** The response type paired with a request type; other types are echoed. *)
Definition respType (msgType : string) : string :=
  if decide (msgType = didDocReq) then didDocResp
  else if decide (msgType = registerRouteReq) then registerRouteResp
  else msgType.

(** One iteration of the loop of [didCommMsgListener]. *)
Definition listen1 (o : Service) (msg : DIDCommMsg) : Go unit :=
  r ← (if decide (msg_Type msg = didDocReq) then handleDIDDocReq o msg
       else if decide (msg_Type msg = registerRouteReq) then handleConnReq o msg
       else mret (Err (errors_New
              ("unsupported message service type : " +:+ msg_Type msg))));
  msgMap ← match r with
           | Ok msgMap => mret msgMap
           | Err err =>
             let msgType := respType (msg_Type msg) in
             id ← call uuid_New;
             logger_Errorf ("msgType=[" +:+ msg_Type msg +:+ "] id=[" +:+
                            msg_ID msg +:+ "] errMsg=[" +:+ Error err +:+ "]");;
             mret (NewDIDCommMsgMap
               {| ErrorResp_ID := id;
                  ErrorResp_Type := msgType;
                  ErrorResp_Data := Some {| ErrorMsg := Error err |} |})
           end;
  record (OpReplyTo (msg_ID msg) msgMap);;
  err ← call (ReplyTo (messenger o) (msg_ID msg) msgMap);
  match err with
  | Some err =>
    logger_Errorf ("sendReply : msgType=[" +:+ msg_Type msg +:+ "] id=[" +:+
                   msg_ID msg +:+ "] errMsg=[" +:+ Error err +:+ "]")
  | None =>
    logger_Infof ("msgType=[" +:+ msg_Type msg +:+ "] id=[" +:+
                  msg_ID msg +:+ "] msg=[success]")
  end.

(** [(o *Service) didCommMsgListener]: the channel is the list of the
    messages it delivers before it is closed. *)
Fixpoint didCommMsgListener (o : Service) (ch : list DIDCommMsg) : Go unit :=
  match ch with
  | [] => mret tt
  | msg :: ch => listen1 o msg;; didCommMsgListener o ch
  end.

(** [getTxnStore] *)
Definition getTxnStore (prov : Provider) : Go (result Store) :=
  record (OpCreateStore txnStoreName);;
  err ← call (CreateStore prov txnStoreName);
  match err with
  | Some err' =>
    if negb (errors_Is err' ErrDuplicateStore) then mret (Err err')
    else getTxnStore_open prov
  | None => getTxnStore_open prov
  end.

(** [New]; the listener it starts on the fresh channel is
    [didCommMsgListener], run on what the channel delivers. *)
Definition New (config : Config) : Go (result Service) :=
  r ← getTxnStore (TransientStore config);
  match r with
  | Err err => mret (Err (fmt_Errorf_w "store: " err))
  | Ok tStore =>
    let o := {| didExchange := DIDExchangeClient config;
                mediator := MediatorClient config;
                messenger := AriesMessenger config;
                vdriRegistry := VDRIRegistry config;
                endpoint := ServiceEndpoint config;
                tStore := tStore |} in
    let svcs := [newMsgSvc "diddoc-req" didDocReq;
                 newMsgSvc "register-route-req" registerRouteReq] in
    record (OpRegisterMsgSvc svcs);;
    err ← call (Registrar_Register (MsgRegistrar config) svcs);
    match err with
    | Some err => mret (Err (fmt_Errorf_w "message service client: " err))
    | None => mret (Ok o)
    end
  end.

End Handlers.

End message.

(** * The relying-party DAO *)

Module db.

Definition sqlRelyingPartyFindByClientID : string :=
  "select * from relying_party where client_id = ?".

(** A row of the table [relying_party(id, client_id, did)]. *)
Record Row : Type := { row_id : Z; row_client_id : string; row_did : string }.

(** [sql.DB]: the rows of the table in the order the database yields them,
    and the error of the connection or driver when it is down. *)
Record DB : Type := { relying_party : list Row; down : option error }.

(** [db.QueryRow(sqlRelyingPartyFindByClientID, id).Scan(...)]: the first
    row the statement selects, [sql.ErrNoRows] when it selects none. *)
Definition QueryRow_FindByClientID (d : DB) (id : string) : result Row :=
  match down d with
  | Some err => Err err
  | None =>
    match filter (λ r, row_client_id r = id) (relying_party d) with
    | r :: _ => Ok r
    | [] => Err (sentinel ErrNoRows)
    end
  end.

Section DAO.
(** [did.DID] and [did.Parse] of aries-framework-go. *)
Context {DID : Type} (did_Parse : string → result DID).

(** [RelyingParty]; the DID is a pointer. *)
Record RelyingParty : Type :=
  { ID : Z; ClientID : string; RP_DID : option DID }.

(** [RelyingParties] *)
Record RelyingParties : Type := { RelyingParties_DB : DB }.

(** [NewRelyingParties] *)
Definition NewRelyingParties (d : DB) : RelyingParties :=
  {| RelyingParties_DB := d |}.

(** [(r *RelyingParties) FindByClientID] *)
Definition FindByClientID (r : RelyingParties) (id : string)
  : result RelyingParty :=
  match QueryRow_FindByClientID (RelyingParties_DB r) id with
  | Err err =>
    Err (fmt_Errorf_w "failed to query relying_party by client_id : " err)
  | Ok row =>
    let dbDID := row_did row in
    match did_Parse dbDID with
    | Err err =>
      Err (fmt_Errorf_w ("failed to parse rpDID " +:+ dbDID +:+ " : ") err)
    | Ok d =>
      Ok {| ID := row_id row; ClientID := row_client_id row;
            RP_DID := Some d |}
    end
  end.

End DAO.

(** ** Insertion *)

Definition sqlInsertRelyingParty : string :=
  "insert into relying_party (client_id, did) values (?, ?)".

(** [sql.Result], restricted to the method used. *)
Record sql_Result : Type := { LastInsertId : result Z }.

(** What the database and its driver decide on an insertion: whether the
    statement is refused (a constraint of the table, say), the id
    generated for the new row, and whether the driver can report that
    id. *)
Record Driver : Type :=
  { refuses : list Row → string → string → option error;
    generate_id : list Row → Z;
    LastInsertId_err : option error }.

(** [db.Exec(sqlInsertRelyingParty, clientID, did)]: the result and the
    database with the new row, its id generated. *)
Definition Exec_Insert (drv : Driver) (d : DB) (clientID did : string)
  : result (sql_Result * DB) :=
  match down d with
  | Some err => Err err
  | None =>
    match refuses drv (relying_party d) clientID did with
    | Some err => Err err
    | None =>
      let id := generate_id drv (relying_party d) in
      Ok ({| LastInsertId := match LastInsertId_err drv with
                             | Some err => Err err
                             | None => Ok id
                             end |},
          {| relying_party :=
               relying_party d ++
               [{| row_id := id; row_client_id := clientID; row_did := did |}];
             down := down d |})
    end
  end.

Section Insertion.
(** The [String] method of [did.DID]. *)
Context {DID : Type} (DID_String : DID → string) (drv : Driver).

(** [(r *RelyingParties) Insert]: the error returned, the relying party as
    the call leaves it and the DAO over the database as the call leaves
    it; [None] when the call panics, which it does on a nil DID, whose
    [String] method dereferences it before the statement is executed.
    The receiver, its database handle and the relying party itself are
    records here, so they are not nil. *)
Definition Insert (r : RelyingParties) (rp : RelyingParty (DID:=DID))
  : option (option error * RelyingParty (DID:=DID) * RelyingParties) :=
  match RP_DID rp with
  | None => None
  | Some d =>
    match Exec_Insert drv (RelyingParties_DB r) (ClientID rp) (DID_String d) with
    | Err err =>
      Some (Some (fmt_Errorf_w "failed to insert relying party : " err), rp, r)
    | Ok (result, d') =>
      let r' := {| RelyingParties_DB := d' |} in
      match LastInsertId result with
      | Err err =>
        Some (Some (fmt_Errorf_w "failed to retrieve auto generated id : " err),
              rp, r')
      | Ok id =>
        Some (None,
              {| ID := id; ClientID := ClientID rp; RP_DID := RP_DID rp |}, r')
      end
    end
  end.

End Insertion.

End db.

Import message.

(** * Vocabulary of the statements *)

Section Vocabulary.
Context `{P : Platform}.

(** The options [handleDIDDocReq] passes to the registry: the service's
    own endpoint as the sole service entry. *)
Definition peerOpts (o : Service) : list DocOpts :=
  [WithServices {| did_ServiceEndpoint := endpoint o |}].

(** The world after the operations [ops] that touched neither the store's
    contents nor the log and left the collaborators in [e]. *)
Definition World_step (w : World) (ops : list Op) (e : ext) : World :=
  {| txn := txn w; outside := e; trace := trace w ++ ops; logs := logs w |}.

(** A registration request that passes the four validation steps, with
    the raw document it carries and the document parsed from it. *)
Definition validated (msg : DIDCommMsg) : option (bytes * Doc) :=
  match msg_Decode msg with
  | Err _ => None
  | Ok pMsg =>
    if decide (msg_ParentThreadID msg = "") then None
    else
      data ← ConnReq_Data pMsg;
      raw ← ConnReqData_DIDDoc data;
      match did_ParseDocument raw with
      | Err _ => None
      | Ok didDoc => Some (raw, didDoc)
      end
  end.

(** The world after a [Put] of [v] under [k] was accepted in the course
    of the operations [ops]. *)
Definition World_put (w : World) (k : string) (v : bytes) (ops : list Op)
    (e : ext) : World :=
  {| txn := <[k:=v]> (txn w); outside := e; trace := trace w ++ ops;
     logs := logs w |}.

(** The operations of the registration handler up to its request to the
    connection component, as the message and the entry found in the store
    decide them. *)
Definition approach (msg : DIDCommMsg) (stored : option bytes) : list Op :=
  OpDecode (msg_ID msg) ::
  match msg_Decode msg with
  | Err _ => []
  | Ok pMsg =>
    if decide (msg_ParentThreadID msg = "") then []
    else
      match ConnReq_Data pMsg ≫= ConnReqData_DIDDoc with
      | None => []
      | Some raw =>
        OpParseDocument raw ::
        match did_ParseDocument raw with
        | Err _ => []
        | Ok didDoc =>
          OpGet (msg_ParentThreadID msg) ::
          match stored with
          | Some txnID => [OpCreateConnection txnID didDoc]
          | None => []
          end
        end
      end
  end.

(** The replies among the operations. *)
Definition replies (ops : list Op) : list (string * DIDCommMsgMap) :=
  omap (λ op, match op with OpReplyTo i m => Some (i, m) | _ => None end) ops.

End Vocabulary.

Section DispatchVocabulary.
Context `{P : Platform}.

(** The texts the listener logs. *)
Definition errLine (msg : DIDCommMsg) (err : error) : Level * string :=
  (LevelError, "msgType=[" +:+ msg_Type msg +:+ "] id=[" +:+ msg_ID msg +:+
               "] errMsg=[" +:+ Error err +:+ "]").
Definition sendReplyLine (msg : DIDCommMsg) (err : error) : Level * string :=
  (LevelError, "sendReply : msgType=[" +:+ msg_Type msg +:+ "] id=[" +:+
               msg_ID msg +:+ "] errMsg=[" +:+ Error err +:+ "]").
Definition successLine (msg : DIDCommMsg) : Level * string :=
  (LevelInfo, "msgType=[" +:+ msg_Type msg +:+ "] id=[" +:+ msg_ID msg +:+
              "] msg=[success]").

(** The handler the listener picks for a message, when there is one. *)
Inductive handled (o : Service) (msg : DIDCommMsg) (w : World)
    (r : result DIDCommMsgMap) (w1 : World) : Prop :=
| handled_DIDDocReq :
    msg_Type msg = didDocReq →
    run (handleDIDDocReq o msg) w = (r, w1) → handled o msg w r w1
| handled_ConnReq :
    msg_Type msg = registerRouteReq →
    run (handleConnReq o msg) w = (r, w1) → handled o msg w r w1.



End DispatchVocabulary.

(** * A concrete platform

    Collaborators that can be run: documents are their own ids, the
    outside world is a counter that every stateful call advances. *)

Module Fixture.

Definition docBytesOf (d : string) : result bytes :=
  if decide (d = "") then Err (errors_New "empty document") else Ok ("doc:" +:+ d).

Definition parseDoc (b : bytes) : result string :=
  match b with
  | String "d"%char (String "o"%char (String "c"%char (String ":"%char d))) =>
    if decide (d = "") then Err (errors_New "empty document") else Ok d
  | _ => Err (errors_New "not a document")
  end.

#[local] Instance platform : Platform :=
  {| ext := nat;
     Doc := string;
     Doc_ID := λ d, d;
     Doc_JSONBytes := docBytesOf;
     did_ParseDocument := parseDoc;
     uuid_New := λ n, ("uuid-" +:+ pretty n, S n) |}.

Definition registry : Registry :=
  {| Create := λ _ _ (n : ext), (Ok ("did:peer:" +:+ pretty n), S n) |}.
(** A registry whose documents cannot be serialized. *)
Definition registryUnserializable : Registry :=
  {| Create := λ _ _ (n : ext), (Ok "", S n) |}.
Definition exchange : DIDExchange :=
  {| CreateConnection := λ _ _ (n : ext), (Ok ("conn-" +:+ pretty n), S n) |}.
Definition exchangeDown : DIDExchange :=
  {| CreateConnection := λ _ _ (n : ext), (Err (errors_New "no route to peer"), S n) |}.
Definition mediatorOk : Mediator :=
  {| Register := λ _ (n : ext), (None, S n) |}.
Definition messengerOk : Messenger :=
  {| ReplyTo := λ _ _ (n : ext), (None, n) |}.
Definition store : Store :=
  {| Put_refused := λ _ _ (n : ext), (None, n); refused_Put_writes := false |}.

Definition svc : Service :=
  {| didExchange := exchange; mediator := mediatorOk; messenger := messengerOk;
     vdriRegistry := registry; endpoint := "https://adapter.example/didcomm";
     tStore := store |}.

Definition world0 : World :=
  {| txn := ∅; outside := 0; trace := []; logs := [] |}.

Definition docRequest (id : string) : DIDCommMsg :=
  {| msg_Type := didDocReq; msg_ID := id; msg_ParentThreadID := "";
     msg_Decode := Ok {| ConnReq_ID := id; ConnReq_Type := didDocReq;
                         ConnReq_Data := None |} |}.

Definition connRequest (id pthid : string) (doc : option bytes) : DIDCommMsg :=
  {| msg_Type := registerRouteReq; msg_ID := id; msg_ParentThreadID := pthid;
     msg_Decode := Ok {| ConnReq_ID := id; ConnReq_Type := registerRouteReq;
                         ConnReq_Data := Some {| ConnReqData_DIDDoc := doc |} |} |}.

(** The registration request against [r1] that carries the document of
    the second response. *)
Definition reg : DIDCommMsg := connRequest "c1" "r1" (Some "doc:did:peer:2").

Definition docResp (id : string) (docBytes : bytes) : DIDCommMsgMap :=
  MapDIDDocResp {| DIDDocResp_ID := id; DIDDocResp_Type := didDocResp;
                   DIDDocResp_Data := Some {| DIDDoc := docBytes |} |}.

(** A service whose connection component is down. *)
Definition svcDown : Service :=
  {| didExchange := exchangeDown; mediator := mediatorOk;
     messenger := messengerOk; vdriRegistry := registry;
     endpoint := "https://adapter.example/didcomm"; tStore := store |}.

(** A service whose registry creates documents that cannot be serialized. *)
Definition svcUnserializable : Service :=
  {| didExchange := exchange; mediator := mediatorOk;
     messenger := messengerOk; vdriRegistry := registryUnserializable;
     endpoint := "https://adapter.example/didcomm"; tStore := store |}.

(** The world after one, and after two, document requests with id [r1]. *)
Definition world1 : World := (run (handleDIDDocReq svc (docRequest "r1")) world0).2.
Definition world2 : World := (run (handleDIDDocReq svc (docRequest "r1")) world1).2.

Definition badDecode : DIDCommMsg :=
  {| msg_Type := registerRouteReq; msg_ID := "c0"; msg_ParentThreadID := "";
     msg_Decode := Err (errors_New "unexpected end of JSON input") |}.

Definition ping : DIDCommMsg :=
  {| msg_Type := "https://didcomm.org/trust_ping/1.0/ping"; msg_ID := "p1";
     msg_ParentThreadID := "";
     msg_Decode := Err (errors_New "unexpected end of JSON input") |}.

(** Providers: one whose store exists already, one that cannot create,
    one that creates and cannot open. *)
Definition providerExisting : Provider :=
  {| CreateStore := λ _ (n : ext), (Some (sentinel ErrDuplicateStore), S n);
     OpenStore := λ _ (n : ext), (Ok store, S n) |}.
Definition providerFull : Provider :=
  {| CreateStore := λ _ (n : ext), (Some (errors_New "disk full"), S n);
     OpenStore := λ _ (n : ext), (Ok store, S n) |}.
Definition providerLost : Provider :=
  {| CreateStore := λ _ (n : ext), (None, S n);
     OpenStore := λ _ (n : ext), (Err (sentinel ErrStoreNotFound), S n) |}.

Definition config (prov : Provider) : Config :=
  {| DIDExchangeClient := exchange; MediatorClient := mediatorOk;
     ServiceEndpoint := "https://adapter.example/didcomm";
     AriesMessenger := messengerOk;
     MsgRegistrar := {| Registrar_Register := λ _ (n : ext), (None, S n) |};
     VDRIRegistry := registry; TransientStore := prov |}.

(** A relying-party table, and a parser that accepts what starts with
    [did:]. *)
Definition parseDID (s : string) : result string :=
  match s with
  | String "d"%char (String "i"%char (String "d"%char (String ":"%char _))) => Ok s
  | _ => Err (errors_New "invalid did")
  end.

Definition rps : db.RelyingParties :=
  db.NewRelyingParties
    {| db.relying_party :=
         [ {| db.row_id := 1; db.row_client_id := "client-a";
              db.row_did := "did:example:a" |};
           {| db.row_id := 2; db.row_client_id := "client-b";
              db.row_did := "example:b" |} ];
       db.down := None |}.

(** A service whose mediator refuses every registration. *)
Definition mediatorDown : Mediator :=
  {| Register := λ _ (n : ext), (Some (errors_New "mediator unavailable"), S n) |}.
Definition svcUnmediated : Service :=
  {| didExchange := exchange; mediator := mediatorDown;
     messenger := messengerOk; vdriRegistry := registry;
     endpoint := "https://adapter.example/didcomm"; tStore := store |}.

(** A service whose registry is down, and one whose store reports an
    error after it has written. *)
Definition svcNoRegistry : Service :=
  {| didExchange := exchange; mediator := mediatorOk; messenger := messengerOk;
     vdriRegistry :=
       {| Create := λ _ _ (n : ext), (Err (errors_New "vdr unavailable"), S n) |};
     endpoint := "https://adapter.example/didcomm"; tStore := store |}.
Definition svcStoreFull : Service :=
  {| didExchange := exchange; mediator := mediatorOk; messenger := messengerOk;
     vdriRegistry := registry; endpoint := "https://adapter.example/didcomm";
     tStore :=
       {| Put_refused := λ _ _ (n : ext), (Some (errors_New "store is full"), S n);
          refused_Put_writes := true |} |}.

(** The relying-party database, down. *)
Definition rpsDown : db.RelyingParties :=
  db.NewRelyingParties
    {| db.relying_party := []; db.down := Some (errors_New "connection refused") |}.

(** A service whose messenger loses every reply. *)
Definition messengerLost : Messenger :=
  {| ReplyTo := λ _ _ (n : ext), (Some (errors_New "connection closed"), S n) |}.
Definition svcLost : Service :=
  {| didExchange := exchange; mediator := mediatorOk;
     messenger := messengerLost; vdriRegistry := registry;
     endpoint := "https://adapter.example/didcomm"; tStore := store |}.

(** A registrar that refuses. *)
Definition configUnregistered : Config :=
  {| DIDExchangeClient := exchange; MediatorClient := mediatorOk;
     ServiceEndpoint := "https://adapter.example/didcomm";
     AriesMessenger := messengerOk;
     MsgRegistrar :=
       {| Registrar_Register :=
            λ _ (n : ext), (Some (errors_New "service already registered"), S n) |};
     VDRIRegistry := registry; TransientStore := providerExisting |}.

(** Drivers: one that numbers the rows from one and reports the id, one
    that cannot report it. *)
Definition driver : db.Driver :=
  {| db.refuses := λ _ _ _, None;
     db.generate_id := λ rows, Z.of_nat (S (length rows));
     db.LastInsertId_err := None |}.
Definition driverSilent : db.Driver :=
  {| db.refuses := λ _ _ _, None;
     db.generate_id := λ rows, Z.of_nat (S (length rows));
     db.LastInsertId_err := Some (errors_New "LastInsertId is not supported") |}.

Definition rpC : db.RelyingParty :=
  {| db.ID := 0; db.ClientID := "client-c"; db.RP_DID := Some "did:example:c" |}.

(** The table of [rps] with the row of [rpC] appended. *)
Definition rpsC : db.RelyingParties :=
  db.NewRelyingParties
    {| db.relying_party :=
         db.relying_party (db.RelyingParties_DB rps) ++
         [ {| db.row_id := 3; db.row_client_id := "client-c";
              db.row_did := "did:example:c" |} ];
       db.down := None |}.

End Fixture.

(** * Properties of the message service *)

Section MessageService.
Context `{P : Platform}.

Lemma run_bind {A B} (c : Go A) (k : A → Go B) (w : World) :
  run (c ≫= k) w = let '(a, w') := run c w in run (k a) w'.
Proof. reflexivity. Qed.

(** What [handleDIDDocReq] does, by the answers of the registry, the store
    and the serializer. *)
Lemma handleDIDDocReq_run (o : Service) (msg : DIDCommMsg) (w : World) :
  let create := OpCreate "peer" (peerOpts o) in
  run (handleDIDDocReq o msg) w =
  match Create (vdriRegistry o) "peer" (peerOpts o) (outside w) with
  | (Err err, e1) =>
    (Err (fmt_Errorf_w "create new peer did : " err), World_step w [create] e1)
  | (Ok newDidDoc, e1) =>
    let put := OpPut (msg_ID msg) (Doc_ID newDidDoc) in
    match Put_refused (tStore o) (msg_ID msg) (Doc_ID newDidDoc) e1 with
    | (Some err, e2) =>
      (Err (fmt_Errorf_w "save txn data : " err),
       if refused_Put_writes (tStore o)
       then World_put w (msg_ID msg) (Doc_ID newDidDoc) [create; put] e2
       else World_step w [create; put] e2)
    | (None, e2) =>
      let ops := [create; put; OpJSONBytes newDidDoc] in
      match Doc_JSONBytes newDidDoc with
      | Err err =>
        (Err (fmt_Errorf_w "marshal did doc : " err),
         World_put w (msg_ID msg) (Doc_ID newDidDoc) ops e2)
      | Ok docBytes =>
        (Ok (MapDIDDocResp
               {| DIDDocResp_ID := (uuid_New e2).1;
                  DIDDocResp_Type := didDocResp;
                  DIDDocResp_Data := Some {| DIDDoc := docBytes |} |}),
         World_put w (msg_ID msg) (Doc_ID newDidDoc) ops (uuid_New e2).2)
      end
    end
  end.
Proof.
  unfold handleDIDDocReq, Store_Put, Store_write, peerOpts, World_step,
    World_put. cbn.
  destruct (Create _ _ _ _) as [[newDidDoc|err] e1]; cbn; [|done].
  destruct (Put_refused _ _ _ _) as [[err|] e2]; cbn.
  { destruct (refused_Put_writes _); cbn; by rewrite <- !app_assoc. }
  destruct (Doc_JSONBytes newDidDoc) as [docBytes|err]; cbn.
  2: { by rewrite <- !app_assoc. }
  destruct (uuid_New e2) as [id e3]; cbn. by rewrite <- !app_assoc.
Qed.

(** A successful [handleDIDDocReq], read backwards. *)
Lemma handleDIDDocReq_Ok (o : Service) (msg : DIDCommMsg) (w w' : World)
    (m : DIDCommMsgMap) :
  run (handleDIDDocReq o msg) w = (Ok m, w') →
  ∃ newDidDoc docBytes e1 e2,
    Create (vdriRegistry o) "peer" (peerOpts o) (outside w) = (Ok newDidDoc, e1) ∧
    Put_refused (tStore o) (msg_ID msg) (Doc_ID newDidDoc) e1 = (None, e2) ∧
    Doc_JSONBytes newDidDoc = Ok docBytes ∧
    m = MapDIDDocResp {| DIDDocResp_ID := (uuid_New e2).1;
                         DIDDocResp_Type := didDocResp;
                         DIDDocResp_Data := Some {| DIDDoc := docBytes |} |} ∧
    w' = World_put w (msg_ID msg) (Doc_ID newDidDoc)
           [OpCreate "peer" (peerOpts o);
            OpPut (msg_ID msg) (Doc_ID newDidDoc);
            OpJSONBytes newDidDoc] (uuid_New e2).2.
Proof.
  rewrite handleDIDDocReq_run. cbn zeta.
  destruct (Create _ _ _ _) as [[newDidDoc|err] e1] eqn:HC; [|done].
  destruct (Put_refused _ _ _ _) as [[err|] e2] eqn:HP; [done|].
  destruct (Doc_JSONBytes newDidDoc) as [docBytes|err] eqn:HJ; [|done].
  intros [= <- <-]. by exists newDidDoc, docBytes, e1, e2.
Qed.

(** C1.  A document request that succeeds returns one [DIDDocResp]: its
    type is the fixed response tag (the base URI followed by
    "/diddoc-resp"), its payload the serialized bytes of the document the
    registry has just created, and afterwards the transaction store holds
    that document's id under the id of the request. *)
Theorem handleDIDDocReq_success (o : Service) (msg : DIDCommMsg)
    (w w' : World) (m : DIDCommMsgMap) :
  run (handleDIDDocReq o msg) w = (Ok m, w') →
  ∃ newDidDoc docBytes id e1,
    Create (vdriRegistry o) "peer" (peerOpts o) (outside w) = (Ok newDidDoc, e1) ∧
    Doc_JSONBytes newDidDoc = Ok docBytes ∧
    m = MapDIDDocResp {| DIDDocResp_ID := id;
                         DIDDocResp_Type := didDocResp;
                         DIDDocResp_Data := Some {| DIDDoc := docBytes |} |} ∧
    MsgMap_Type m = msgTypeBaseURI +:+ "/diddoc-resp" ∧
    MsgMap_Payload m = DocPayload {| DIDDoc := docBytes |} ∧
    txn w' !! msg_ID msg = Some (Doc_ID newDidDoc).
Proof.
  intros (newDidDoc & docBytes & e1 & e2 & HC & _ & HJ & -> & ->)%handleDIDDocReq_Ok.
  exists newDidDoc, docBytes, (uuid_New e2).1, e1.
  split_and!; try done. apply lookup_insert_eq.
Qed.

Lemma validated_Some (msg : DIDCommMsg) (raw : bytes) (didDoc : Doc) :
  validated msg = Some (raw, didDoc) ↔
  ∃ pMsg data,
    msg_Decode msg = Ok pMsg ∧ msg_ParentThreadID msg ≠ "" ∧
    ConnReq_Data pMsg = Some data ∧ ConnReqData_DIDDoc data = Some raw ∧
    did_ParseDocument raw = Ok didDoc.
Proof.
  unfold validated. split.
  - destruct (msg_Decode msg) as [pMsg|]; [|done].
    destruct (decide _) as [|Hp]; [done|].
    destruct (ConnReq_Data pMsg) as [data|] eqn:HD; [|done]. cbn.
    destruct (ConnReqData_DIDDoc data) as [raw'|] eqn:HR; [|done]. cbn.
    destruct (did_ParseDocument raw') as [d|] eqn:Hd; [|done].
    intros [= -> ->]. exists pMsg, data. by split_and!.
  - intros (pMsg & data & -> & Hp & HD & HR & Hd).
    destruct (decide _); [done|]. rewrite HD. cbn. rewrite HR. cbn.
    by rewrite Hd.
Qed.

(** What [handleConnReq] does once the request has passed validation. *)
Lemma handleConnReq_validated (o : Service) (msg : DIDCommMsg) (w : World)
    (raw : bytes) (didDoc : Doc) :
  validated msg = Some (raw, didDoc) →
  let pthid := msg_ParentThreadID msg in
  let checks := [OpDecode (msg_ID msg); OpParseDocument raw; OpGet pthid] in
  run (handleConnReq o msg) w =
  match txn w !! pthid with
  | None =>
    (Err (fmt_Errorf_w "fetch txn data : " (sentinel ErrValueNotFound)),
     World_step w checks (outside w))
  | Some txnID =>
    let conn := (checks ++ [OpCreateConnection txnID didDoc])%list in
    match CreateConnection (didExchange o) txnID didDoc (outside w) with
    | (Err err, e1) =>
      (Err (fmt_Errorf_w "create connection : " err), World_step w conn e1)
    | (Ok connID, e1) =>
      match Register (mediator o) connID e1 with
      | (Some err, e2) =>
        (Err (fmt_Errorf_w "route registration : " err),
         World_step w (conn ++ [OpRegister connID])%list e2)
      | (None, e2) =>
        (Ok (MapConnResp {| ConnResp_ID := (uuid_New e2).1;
                            ConnResp_Type := registerRouteResp |}),
         World_step w (conn ++ [OpRegister connID])%list (uuid_New e2).2)
      end
    end
  end.
Proof.
  intros (pMsg & data & HD & Hp & Hdata & Hraw & Hdoc)%validated_Some.
  unfold handleConnReq, Store_Get, World_step. cbn.
  rewrite HD. destruct (decide _) as [|_]; [done|].
  rewrite Hdata, Hraw. cbn. rewrite Hdoc. cbn.
  destruct (txn w !! _) as [txnID|]; cbn.
  2: { by rewrite <- !app_assoc. }
  destruct (CreateConnection _ _ _ _) as [[connID|err] e1]; cbn.
  2: { by rewrite <- !app_assoc. }
  destruct (Register _ _ _) as [[err|] e2]; cbn.
  { by rewrite <- !app_assoc. }
  destruct (uuid_New e2) as [id e3]; cbn. by rewrite <- !app_assoc.
Qed.

(** C3.  The registration handler validates in a fixed order: decoding,
    then the parent thread id, then the presence of the document, then
    the parse of the document.  The first step that fails decides the
    error, and the handler stops there: besides the decoding (and the
    parse, when it is the parse that fails) nothing has run, the store and
    the collaborators are as before. *)
Theorem handleConnReq_validation_order (o : Service) (msg : DIDCommMsg)
    (w : World) :
  let stops ops err :=
    run (handleConnReq o msg) w = (Err err, World_step w ops (outside w)) in
  let decode := OpDecode (msg_ID msg) in
  (∀ err, msg_Decode msg = Err err →
     stops [decode] (fmt_Errorf_w "parse didcomm message : " err)) ∧
  (∀ pMsg, msg_Decode msg = Ok pMsg →
     msg_ParentThreadID msg = "" →
     stops [decode] (errors_New "parent thread id mandatory")) ∧
  (∀ pMsg, msg_Decode msg = Ok pMsg →
     msg_ParentThreadID msg ≠ "" →
     ConnReq_Data pMsg ≫= ConnReqData_DIDDoc = None →
     stops [decode] (errors_New "did document mandatory")) ∧
  (∀ pMsg raw err, msg_Decode msg = Ok pMsg →
     msg_ParentThreadID msg ≠ "" →
     ConnReq_Data pMsg ≫= ConnReqData_DIDDoc = Some raw →
     did_ParseDocument raw = Err err →
     stops [decode; OpParseDocument raw] (fmt_Errorf_w "parse did doc : " err)).
Proof.
  cbn zeta. unfold handleConnReq, World_step. split_and!.
  - intros err ->. done.
  - intros pMsg -> ->. done.
  - intros pMsg -> Hp Hd. cbn. destruct (decide _) as [|_]; [done|].
    destruct (ConnReq_Data pMsg) as [data|]; [|done]. cbn in Hd.
    by rewrite Hd.
  - intros pMsg raw err -> Hp Hd Hdoc. cbn. destruct (decide _) as [|_]; [done|].
    destruct (ConnReq_Data pMsg) as [data|]; [|done]. cbn in Hd.
    rewrite Hd. cbn. rewrite Hdoc. cbn. by rewrite <- !app_assoc.
Qed.

(** C4.  A registration request that passes validation and whose parent
    thread id is under no entry of the transaction store fails with the
    store's not-found error, wrapped; the lookup is the last thing that
    ran, so neither the connection component nor the mediator was
    called. *)
Theorem handleConnReq_unknown_parent (o : Service) (msg : DIDCommMsg)
    (w : World) (raw : bytes) (didDoc : Doc) :
  validated msg = Some (raw, didDoc) →
  txn w !! msg_ParentThreadID msg = None →
  ∃ err,
    run (handleConnReq o msg) w =
      (Err err,
       World_step w [OpDecode (msg_ID msg); OpParseDocument raw;
                     OpGet (msg_ParentThreadID msg)] (outside w)) ∧
    err = fmt_Errorf_w "fetch txn data : " (sentinel ErrValueNotFound) ∧
    errors_Is err ErrValueNotFound = true.
Proof.
  intros Hv Hk. rewrite (handleConnReq_validated _ _ _ _ _ Hv). cbn zeta.
  rewrite Hk. by eexists.
Qed.

(** C5.  When the connection component refuses a registration request
    with an error [E], the dispatcher sends, through the messenger and
    under the id of the request, an error response whose message ends
    with the text of [E] and whose type is the registration-response
    type, not the type of the request; the mediator is not called.  The
    world afterwards is the one the messenger's [ReplyTo] left, and the
    log holds the error followed by the outcome of the sending. *)
Theorem listen1_connection_error (o : Service) (msg : DIDCommMsg) (w : World)
    (raw : bytes) (didDoc : Doc) (myDID : bytes) (E : error) (e1 : ext) :
  msg_Type msg = registerRouteReq →
  validated msg = Some (raw, didDoc) →
  txn w !! msg_ParentThreadID msg = Some myDID →
  CreateConnection (didExchange o) myDID didDoc (outside w) = (Err E, e1) →
  let w' := (run (listen1 o msg) w).2 in
  let err := fmt_Errorf_w "create connection : " E in
  let reply := MapErrorResp
    {| ErrorResp_ID := (uuid_New e1).1;
       ErrorResp_Type := registerRouteResp;
       ErrorResp_Data :=
         Some {| ErrorMsg := "create connection : " +:+ Error E |} |} in
  trace w' = trace w ++ [OpDecode (msg_ID msg); OpParseDocument raw;
                         OpGet (msg_ParentThreadID msg);
                         OpCreateConnection myDID didDoc;
                         OpReplyTo (msg_ID msg) reply] ∧
  MsgMap_Type reply = msgTypeBaseURI +:+ "/register-route-resp" ∧
  MsgMap_Type reply ≠ msg_Type msg ∧
  txn w' = txn w ∧
  match ReplyTo (messenger o) (msg_ID msg) reply (uuid_New e1).2 with
  | (None, e) =>
    outside w' = e ∧ logs w' = logs w ++ [errLine msg err; successLine msg]
  | (Some err', e) =>
    outside w' = e ∧ logs w' = logs w ++ [errLine msg err; sendReplyLine msg err']
  end.
Proof.
  intros Ht Hv Hk HC. cbn zeta. unfold listen1, respType. rewrite Ht.
  destruct (decide (registerRouteReq = didDocReq)) as [|_]; [done|].
  destruct (decide (registerRouteReq = registerRouteReq)) as [_|]; [|done].
  rewrite run_bind, (handleConnReq_validated _ _ _ _ _ Hv). cbn zeta.
  rewrite Hk, HC. unfold World_step, errLine, sendReplyLine, successLine.
  rewrite Ht. cbn.
  destruct (uuid_New e1) as [id e2]; cbn.
  destruct (ReplyTo _ _ _ _) as [[err|] e3]; cbn;
    (split_and!; [by rewrite <- !app_assoc|done|done|done|done|
                  by rewrite <- !app_assoc]).
Qed.

(** C6.  A message of neither request type is still answered, once and
    under its own id: the dispatcher sends, through the messenger, an
    error response that echoes the type of the message and whose text
    names it as unsupported.  The world afterwards is the one the
    messenger's [ReplyTo] left, and the log holds the error followed by
    the outcome of the sending. *)
Theorem listen1_unsupported (o : Service) (msg : DIDCommMsg) (w : World) :
  msg_Type msg ≠ didDocReq →
  msg_Type msg ≠ registerRouteReq →
  let w' := (run (listen1 o msg) w).2 in
  let err := errors_New ("unsupported message service type : " +:+ msg_Type msg) in
  let reply := MapErrorResp
    {| ErrorResp_ID := (uuid_New (outside w)).1;
       ErrorResp_Type := msg_Type msg;
       ErrorResp_Data :=
         Some {| ErrorMsg := "unsupported message service type : " +:+
                             msg_Type msg |} |} in
  trace w' = trace w ++ [OpReplyTo (msg_ID msg) reply] ∧
  replies (drop (length (trace w)) (trace w')) = [(msg_ID msg, reply)] ∧
  txn w' = txn w ∧
  match ReplyTo (messenger o) (msg_ID msg) reply (uuid_New (outside w)).2 with
  | (None, e) =>
    outside w' = e ∧ logs w' = logs w ++ [errLine msg err; successLine msg]
  | (Some err', e) =>
    outside w' = e ∧ logs w' = logs w ++ [errLine msg err; sendReplyLine msg err']
  end.
Proof.
  intros H1 H2. cbn zeta. unfold listen1, respType.
  destruct (decide _) as [|_]; [done|]. destruct (decide _) as [|_]; [done|].
  unfold errLine, sendReplyLine, successLine.
  cbn. destruct (uuid_New (outside w)) as [id e1]; cbn.
  destruct (ReplyTo _ _ _ _) as [[err|] e2]; cbn;
    (split_and!; [done|by rewrite drop_app_length|done|done|
                  by rewrite <- !app_assoc]).
Qed.

(** C7.  In the document-request handler the transaction entry is
    committed before the document is serialized: when the registry and the
    store accept and the serialization then fails, the handler returns the
    serialization error and the entry written under the request's id is
    still in the store. *)
Theorem handleDIDDocReq_no_rollback (o : Service) (msg : DIDCommMsg)
    (w : World) (newDidDoc : Doc) (err : error) (e1 e2 : ext) :
  Create (vdriRegistry o) "peer" (peerOpts o) (outside w) = (Ok newDidDoc, e1) →
  Put_refused (tStore o) (msg_ID msg) (Doc_ID newDidDoc) e1 = (None, e2) →
  Doc_JSONBytes newDidDoc = Err err →
  ∃ w',
    run (handleDIDDocReq o msg) w =
      (Err (fmt_Errorf_w "marshal did doc : " err), w') ∧
    trace w' = trace w ++ [OpCreate "peer" (peerOpts o);
                           OpPut (msg_ID msg) (Doc_ID newDidDoc);
                           OpJSONBytes newDidDoc] ∧
    txn w' = <[msg_ID msg := Doc_ID newDidDoc]> (txn w) ∧
    txn w' !! msg_ID msg = Some (Doc_ID newDidDoc).
Proof.
  intros HC HP HJ. rewrite handleDIDDocReq_run. cbn zeta.
  rewrite HC, HP, HJ. eexists. split; [done|]. cbn.
  split_and!; try done. apply lookup_insert_eq.
Qed.

(** What [getTxnStore] does, by the answers of the provider. *)
Lemma getTxnStore_run (prov : Provider) (w : World) :
  let create := OpCreateStore txnStoreName in
  let open := OpOpenStore txnStoreName in
  let opened e1 :=
    match OpenStore prov txnStoreName e1 with
    | (Err err, e2) => (Err err, World_step w [create; open] e2)
    | (Ok txnStore, e2) => (Ok txnStore, World_step w [create; open] e2)
    end in
  run (getTxnStore prov) w =
  match CreateStore prov txnStoreName (outside w) with
  | (Some err, e1) =>
    if errors_Is err ErrDuplicateStore then opened e1
    else (Err err, World_step w [create] e1)
  | (None, e1) => opened e1
  end.
Proof.
  unfold getTxnStore, getTxnStore_open, World_step. cbn.
  destruct (CreateStore _ _ _) as [[err|] e1]; cbn.
  - destruct (errors_Is err ErrDuplicateStore); cbn; [|done].
    destruct (OpenStore _ _ _) as [[st|err'] e2]; cbn; by rewrite <- !app_assoc.
  - destruct (OpenStore _ _ _) as [[st|err'] e2]; cbn; by rewrite <- !app_assoc.
Qed.

(** C8.  Setting up the transaction store tolerates a store that exists
    already: a creation error that is the duplicate-store error is
    dropped, and the store is opened and returned, as it is when the
    creation succeeds.  Any other creation error is returned without
    opening, any error of the opening is returned, and in both cases [New]
    fails with that error. *)
Theorem getTxnStore_tolerates_duplicate (config : Config) (w : World) :
  let prov := TransientStore config in
  let create := OpCreateStore txnStoreName in
  let open := OpOpenStore txnStoreName in
  (∀ err e1 txnStore e2,
     CreateStore prov txnStoreName (outside w) = (Some err, e1) →
     errors_Is err ErrDuplicateStore = true →
     OpenStore prov txnStoreName e1 = (Ok txnStore, e2) →
     run (getTxnStore prov) w = (Ok txnStore, World_step w [create; open] e2)) ∧
  (∀ e1 txnStore e2,
     CreateStore prov txnStoreName (outside w) = (None, e1) →
     OpenStore prov txnStoreName e1 = (Ok txnStore, e2) →
     run (getTxnStore prov) w = (Ok txnStore, World_step w [create; open] e2)) ∧
  (∀ err e1,
     CreateStore prov txnStoreName (outside w) = (Some err, e1) →
     errors_Is err ErrDuplicateStore = false →
     run (getTxnStore prov) w = (Err err, World_step w [create] e1) ∧
     run (New config) w =
       (Err (fmt_Errorf_w "store: " err), World_step w [create] e1)) ∧
  (∀ created e1 err e2,
     CreateStore prov txnStoreName (outside w) = (created, e1) →
     from_option (λ err, errors_Is err ErrDuplicateStore) true created = true →
     OpenStore prov txnStoreName e1 = (Err err, e2) →
     run (getTxnStore prov) w = (Err err, World_step w [create; open] e2) ∧
     run (New config) w =
       (Err (fmt_Errorf_w "store: " err), World_step w [create; open] e2)).
Proof.
  cbn zeta. unfold New. split_and!.
  - intros err e1 st e2 HC HI HO. rewrite getTxnStore_run. cbn zeta.
    by rewrite HC, HI, HO.
  - intros e1 st e2 HC HO. rewrite getTxnStore_run. cbn zeta.
    by rewrite HC, HO.
  - intros err e1 HC HI. rewrite run_bind, getTxnStore_run. cbn zeta.
    by rewrite HC, HI.
  - intros created e1 err e2 HC HI HO. rewrite run_bind, getTxnStore_run.
    cbn zeta. rewrite HC. destruct created as [err'|]; cbn in HI.
    + by rewrite HI, HO.
    + by rewrite HO.
Qed.

(** The world [handleConnReq] leaves: the contents of the store and the
    log are those of before, the trace has grown by the approach and, when
    the connection was made, by the call of the mediator. *)
Lemma handleConnReq_world (o : Service) (msg : DIDCommMsg) (w : World) :
  ∃ rest e,
    (run (handleConnReq o msg) w).2 =
      World_step w (approach msg (txn w !! msg_ParentThreadID msg) ++ rest) e ∧
    Forall (λ op, ∃ connID, op = OpRegister connID) rest.
Proof.
  unfold approach, handleConnReq, Store_Get, World_step. cbn.
  destruct (msg_Decode msg) as [pMsg|err]; cbn.
  2: { by exists [], (outside w). }
  destruct (decide _) as [|_]; cbn.
  { by exists [], (outside w). }
  destruct (ConnReq_Data pMsg) as [data|]; cbn.
  2: { by exists [], (outside w). }
  destruct (ConnReqData_DIDDoc data) as [raw|]; cbn.
  2: { by exists [], (outside w). }
  destruct (did_ParseDocument raw) as [didDoc|err]; cbn.
  2: { exists [], (outside w). by rewrite <- !app_assoc. }
  destruct (txn w !! _) as [txnID|]; cbn.
  2: { exists [], (outside w). by rewrite <- !app_assoc. }
  destruct (CreateConnection _ _ _ _) as [[connID|err] e1]; cbn.
  2: { exists [], e1. by rewrite <- !app_assoc. }
  destruct (Register _ _ _) as [[err|] e2]; cbn.
  - exists [OpRegister connID], e2. rewrite <- !app_assoc.
    split; [done|]. constructor; [by eexists|done].
  - destruct (uuid_New e2) as [id e3]. cbn.
    exists [OpRegister connID], e3. rewrite <- !app_assoc.
    split; [done|]. constructor; [by eexists|done].
Qed.


(** C2.  Round trip.  After a document request has succeeded, a
    registration request whose parent thread id is the id of that request
    and which carries the document of the response is answered, when the
    connection component and the mediator accept, by a [ConnResp] of the
    registration-response type without payload; the connection component
    is called with the value the store holds under that id, which is the
    id of the document created for that request.  When an earlier
    document request with the same id had stored the id of its own
    document, that value was overwritten: the one used is the one of the
    most recent put. *)
Theorem roundtrip (o : Service) (req reg : DIDCommMsg) (w0 w1 : World)
    (m1 : DIDCommMsgMap) (newDidDoc theirDoc : Doc) (docBytes : bytes)
    (connID : string) (e0 e1 e2 : ext) :
  run (handleDIDDocReq o req) w0 = (Ok m1, w1) →
  Create (vdriRegistry o) "peer" (peerOpts o) (outside w0) = (Ok newDidDoc, e0) →
  MsgMap_Payload m1 = DocPayload {| DIDDoc := docBytes |} →
  msg_ParentThreadID reg = msg_ID req →
  validated reg = Some (docBytes, theirDoc) →
  CreateConnection (didExchange o) (Doc_ID newDidDoc) theirDoc (outside w1)
    = (Ok connID, e1) →
  Register (mediator o) connID e1 = (None, e2) →
  let resp := MapConnResp {| ConnResp_ID := (uuid_New e2).1;
                             ConnResp_Type := registerRouteResp |} in
  txn w1 !! msg_ID req = Some (Doc_ID newDidDoc) ∧
  run (handleConnReq o reg) w1 =
    (Ok resp,
     World_step w1 [OpDecode (msg_ID reg); OpParseDocument docBytes;
                    OpGet (msg_ID req);
                    OpCreateConnection (Doc_ID newDidDoc) theirDoc;
                    OpRegister connID] (uuid_New e2).2) ∧
  MsgMap_Payload resp = NoPayload ∧
  MsgMap_Type resp = msgTypeBaseURI +:+ "/register-route-resp" ∧
  (∀ req0 w00 m0 doc0 e00,
     msg_ID req0 = msg_ID req →
     run (handleDIDDocReq o req0) w00 = (Ok m0, w0) →
     Create (vdriRegistry o) "peer" (peerOpts o) (outside w00) = (Ok doc0, e00) →
     txn w0 !! msg_ID req = Some (Doc_ID doc0)).
Proof.
  intros Hreq HC Hpay Hp Hv HCC HR. cbn zeta.
  apply handleDIDDocReq_Ok in Hreq
    as (d & b & e1' & e2' & HC' & _ & HJ & -> & ->).
  rewrite HC in HC'. injection HC' as <- <-.
  assert (txn (World_put w0 (msg_ID req) (Doc_ID newDidDoc)
            [OpCreate "peer" (peerOpts o); OpPut (msg_ID req) (Doc_ID newDidDoc);
             OpJSONBytes newDidDoc] (uuid_New e2').2) !! msg_ID req
          = Some (Doc_ID newDidDoc)) as Hk by apply lookup_insert_eq.
  split_and!; try done.
  - rewrite (handleConnReq_validated _ _ _ _ _ Hv). cbn zeta.
    rewrite Hp, Hk, HCC, HR. done.
  - intros req0 w00 m0 doc0 e00 Hid Hreq0 HC0.
    apply handleDIDDocReq_Ok in Hreq0
      as (d0 & b0 & e10 & e20 & HC0' & _ & _ & _ & ->).
    rewrite HC0 in HC0'. injection HC0' as <- <-.
    rewrite <- Hid. apply lookup_insert_eq.
Qed.

(** ** The listener as a whole *)

Lemma didCommMsgListener_cons (o : Service) (msg : DIDCommMsg)
    (ch : list DIDCommMsg) (w : World) :
  run (didCommMsgListener o (msg :: ch)) w =
  run (didCommMsgListener o ch) (run (listen1 o msg) w).2.
Proof.
  change (didCommMsgListener o (msg :: ch))
    with (listen1 o msg;; didCommMsgListener o ch).
  rewrite run_bind. by destruct (run (listen1 o msg) w).
Qed.

Lemma replies_app (ops1 ops2 : list Op) :
  replies (ops1 ++ ops2) = replies ops1 ++ replies ops2.
Proof. apply omap_app. Qed.

(** Neither handler replies by itself. *)
Lemma handlers_do_not_reply (o : Service) (msg : DIDCommMsg) (w : World) :
  (∃ ops, trace (run (handleDIDDocReq o msg) w).2 = trace w ++ ops ∧
          replies ops = []) ∧
  (∃ ops, trace (run (handleConnReq o msg) w).2 = trace w ++ ops ∧
          replies ops = []).
Proof.
  split.
  - rewrite handleDIDDocReq_run. cbn zeta.
    destruct (Create _ _ _ _) as [[newDidDoc|err] e1]; [|by eexists].
    destruct (Put_refused _ _ _ _) as [[err|] e2];
      [destruct (refused_Put_writes _); by eexists|].
    destruct (Doc_JSONBytes newDidDoc); by eexists.
  - destruct (handleConnReq_world o msg w) as (rest & e & -> & Hrest).
    eexists. split; [done|]. rewrite replies_app.
    assert (replies rest = []) as ->.
    { induction Hrest as [|op rest [connID ->] _ IH]; [done|]. by cbn. }
    rewrite app_nil_r. unfold approach.
    destruct (msg_Decode msg) as [pMsg|]; [|done].
    destruct (decide _); [done|].
    destruct (ConnReq_Data pMsg ≫= ConnReqData_DIDDoc) as [raw|]; [|done].
    destruct (did_ParseDocument raw); [|done].
    by destruct (txn w !! _).
Qed.

End MessageService.

(** * Properties of the relying-party DAO *)

Section RelyingPartyDAO.
Import db.
Context {DID : Type} (did_Parse : string → result DID).

(** C10.  [FindByClientID] returns a relying party only when the row the
    query selects for the client id holds a DID string that parses, and
    then the record's DID is the parse of that string, its other fields
    those of the row; when the row's DID string does not parse, the call
    returns an error and no relying party. *)
Theorem FindByClientID_parses (r : RelyingParties) (id : string) :
  (∀ rp, FindByClientID did_Parse r id = Ok rp →
     ∃ row d,
       QueryRow_FindByClientID (RelyingParties_DB r) id = Ok row ∧
       row ∈ relying_party (RelyingParties_DB r) ∧
       row_client_id row = id ∧
       did_Parse (row_did row) = Ok d ∧
       rp = {| ID := row_id row; ClientID := row_client_id row;
               RP_DID := Some d |}) ∧
  (∀ row err,
     QueryRow_FindByClientID (RelyingParties_DB r) id = Ok row →
     did_Parse (row_did row) = Err err →
     FindByClientID did_Parse r id =
       Err (fmt_Errorf_w ("failed to parse rpDID " +:+ row_did row +:+ " : ") err)).
Proof.
  unfold FindByClientID. split.
  - intros rp.
    destruct (QueryRow_FindByClientID _ id) as [row|err] eqn:HQ; [|done].
    destruct (did_Parse (row_did row)) as [d|err] eqn:HP; [|done].
    intros [= <-]. exists row, d. split_and!; try done.
    + unfold QueryRow_FindByClientID in HQ.
      destruct (down _); [done|].
      destruct (filter _ _) as [|r0 l] eqn:HF; [done|].
      injection HQ as ->.
      assert (row ∈ filter (λ r, row_client_id r = id)
                (relying_party (RelyingParties_DB r))) as Hin
        by (rewrite HF; apply list_elem_of_here).
      by apply list_elem_of_filter in Hin as [_ ?].
    + unfold QueryRow_FindByClientID in HQ.
      destruct (down _); [done|].
      destruct (filter _ _) as [|r0 l] eqn:HF; [done|].
      injection HQ as ->.
      assert (row ∈ filter (λ r, row_client_id r = id)
                (relying_party (RelyingParties_DB r))) as Hin
        by (rewrite HF; apply list_elem_of_here).
      by apply list_elem_of_filter in Hin as [? _].
  - intros row err -> ->. done.
Qed.

End RelyingPartyDAO.

(** * Further properties of the message service *)

Section Dispatch.
Context `{P : Platform}.

Lemma listen1_handled (o : Service) (msg : DIDCommMsg) (w : World)
    (r : result DIDCommMsgMap) (w1 : World) :
  handled o msg w r w1 →
  run (listen1 o msg) w =
  run (msgMap ← match r with
               | Ok msgMap => mret msgMap
               | Err err =>
                 id ← call uuid_New;
                 logger_Errorf (errLine msg err).2;;
                 mret (MapErrorResp
                   {| ErrorResp_ID := id;
                      ErrorResp_Type := respType (msg_Type msg);
                      ErrorResp_Data := Some {| ErrorMsg := Error err |} |})
               end;
       record (OpReplyTo (msg_ID msg) msgMap);;
       err ← call (ReplyTo (messenger o) (msg_ID msg) msgMap);
       match err with
       | Some err => logger_Errorf (sendReplyLine msg err).2
       | None => logger_Infof (successLine msg).2
       end) w1.
Proof.
  intros [Ht Hrun|Ht Hrun]; unfold listen1; rewrite run_bind.
  - destruct (decide _) as [_|]; [|done]. by rewrite Hrun.
  - destruct (decide (msg_Type msg = didDocReq)) as [Hd|_];
      [by rewrite Ht in Hd|].
    destruct (decide _) as [_|]; [|done]. by rewrite Hrun.
Qed.

(** X2.  When the handler of a request succeeds, the listener replies
    with the handler's response as it is, under the id of the request;
    the store stays as the handler left it, and the log gains one line:
    success when the reply was sent, the messenger's error when not. *)
Theorem listen1_relays_response (o : Service) (msg : DIDCommMsg)
    (w w1 : World) (m : DIDCommMsgMap) :
  handled o msg w (Ok m) w1 →
  let w' := (run (listen1 o msg) w).2 in
  trace w' = trace w1 ++ [OpReplyTo (msg_ID msg) m] ∧
  txn w' = txn w1 ∧
  match ReplyTo (messenger o) (msg_ID msg) m (outside w1) with
  | (None, e) => outside w' = e ∧ logs w' = logs w1 ++ [successLine msg]
  | (Some err, e) => outside w' = e ∧ logs w' = logs w1 ++ [sendReplyLine msg err]
  end.
Proof.
  intros H. cbn zeta. rewrite (listen1_handled _ _ _ _ _ H). cbn.
  by destruct (ReplyTo _ _ _ _) as [[err|] e].
Qed.

(** X3.  When the handler of a request fails, the listener replies with
    an error response that carries the text of the handler's error and
    the response type paired with the request type; what the handler had
    committed to the store stays; the error is logged, and after it
    either the success of the sending or its failure. *)
Theorem listen1_relays_error (o : Service) (msg : DIDCommMsg)
    (w w1 : World) (err : error) :
  handled o msg w (Err err) w1 →
  let w' := (run (listen1 o msg) w).2 in
  let reply := MapErrorResp
    {| ErrorResp_ID := (uuid_New (outside w1)).1;
       ErrorResp_Type := respType (msg_Type msg);
       ErrorResp_Data := Some {| ErrorMsg := Error err |} |} in
  trace w' = trace w1 ++ [OpReplyTo (msg_ID msg) reply] ∧
  txn w' = txn w1 ∧
  (msg_Type msg = didDocReq → MsgMap_Type reply = didDocResp) ∧
  (msg_Type msg = registerRouteReq → MsgMap_Type reply = registerRouteResp) ∧
  match ReplyTo (messenger o) (msg_ID msg) reply (uuid_New (outside w1)).2 with
  | (None, e) =>
    outside w' = e ∧ logs w' = logs w1 ++ [errLine msg err; successLine msg]
  | (Some err', e) =>
    outside w' = e ∧
    logs w' = logs w1 ++ [errLine msg err; sendReplyLine msg err']
  end.
Proof.
  intros H. cbn zeta. rewrite (listen1_handled _ _ _ _ _ H). cbn.
  destruct (uuid_New (outside w1)) as [id e1]. cbn.
  destruct (ReplyTo _ _ _ _) as [[err'|] e]; cbn;
    (split_and!; [done|done|by intros ->|by intros ->|done|by rewrite <- app_assoc]).
Qed.

(** A request that fails validation is refused. *)
Lemma handleConnReq_rejected (o : Service) (msg : DIDCommMsg) (w : World) :
  validated msg = None → ∃ err, (run (handleConnReq o msg) w).1 = Err err.
Proof.
  unfold validated, handleConnReq. intros H. cbn.
  destruct (msg_Decode msg) as [pMsg|err]; cbn; [|by eexists].
  destruct (decide _) as [|_]; cbn in *; [by eexists|].
  destruct (ConnReq_Data pMsg) as [data|]; cbn in *; [|by eexists].
  destruct (ConnReqData_DIDDoc data) as [raw|]; cbn in *; [|by eexists].
  destruct (did_ParseDocument raw) as [d|err]; [done|]. cbn. by eexists.
Qed.

(** A successful [handleConnReq], read backwards. *)
Lemma handleConnReq_Ok (o : Service) (msg : DIDCommMsg) (w w' : World)
    (m : DIDCommMsgMap) :
  run (handleConnReq o msg) w = (Ok m, w') →
  ∃ raw didDoc txnID connID e1 e2,
    validated msg = Some (raw, didDoc) ∧
    txn w !! msg_ParentThreadID msg = Some txnID ∧
    CreateConnection (didExchange o) txnID didDoc (outside w) = (Ok connID, e1) ∧
    Register (mediator o) connID e1 = (None, e2) ∧
    m = MapConnResp {| ConnResp_ID := (uuid_New e2).1;
                       ConnResp_Type := registerRouteResp |} ∧
    w' = World_step w [OpDecode (msg_ID msg); OpParseDocument raw;
                       OpGet (msg_ParentThreadID msg);
                       OpCreateConnection txnID didDoc;
                       OpRegister connID] (uuid_New e2).2.
Proof.
  destruct (validated msg) as [[raw didDoc]|] eqn:Hv.
  2: { intros H. destruct (handleConnReq_rejected o msg w Hv) as [err He].
       by rewrite H in He. }
  rewrite (handleConnReq_validated _ _ _ _ _ Hv). cbn zeta.
  destruct (txn w !! _) as [txnID|] eqn:Hk; [|done].
  destruct (CreateConnection _ _ _ _) as [[connID|err] e1] eqn:HC; [|done].
  destruct (Register _ _ _) as [[err|] e2] eqn:HR; [done|].
  intros [= <- <-]. by exists raw, didDoc, txnID, connID, e1, e2.
Qed.

(** X4.  A registration is answered with a [ConnResp] only after the
    request passed validation, the store held an entry under the parent
    thread id, the connection component made the connection with that
    entry as the service's DID, and the mediator accepted the
    registration of that connection. *)
Theorem handleConnReq_success_means_registered (o : Service)
    (msg : DIDCommMsg) (w w' : World) (m : DIDCommMsgMap) :
  run (handleConnReq o msg) w = (Ok m, w') →
  ∃ raw didDoc txnID connID e1 e2 ops,
    validated msg = Some (raw, didDoc) ∧
    txn w !! msg_ParentThreadID msg = Some txnID ∧
    CreateConnection (didExchange o) txnID didDoc (outside w) = (Ok connID, e1) ∧
    Register (mediator o) connID e1 = (None, e2) ∧
    trace w' = trace w ++ ops ++ [OpCreateConnection txnID didDoc;
                                  OpRegister connID] ∧
    outside w' = (uuid_New e2).2 ∧
    MsgMap_Type m = registerRouteResp ∧ MsgMap_Payload m = NoPayload.
Proof.
  intros (raw & didDoc & txnID & connID & e1 & e2 & Hv & Hk & HC & HR & -> & ->)
    %handleConnReq_Ok.
  exists raw, didDoc, txnID, connID, e1, e2,
    [OpDecode (msg_ID msg); OpParseDocument raw; OpGet (msg_ParentThreadID msg)].
  by split_and!.
Qed.

(** X5.  Every reply the listener sends to a document request has the
    document-response type, every reply to a registration request the
    registration-response type, whether the handler succeeded or not; no
    reply has the type of a request. *)
Theorem listen1_reply_type (o : Service) (msg : DIDCommMsg) (w : World) :
  ∃ ops m,
    trace (run (listen1 o msg) w).2 = trace w ++ ops ++ [OpReplyTo (msg_ID msg) m] ∧
    replies ops = [] ∧
    (msg_Type msg = didDocReq → MsgMap_Type m = didDocResp) ∧
    (msg_Type msg = registerRouteReq → MsgMap_Type m = registerRouteResp) ∧
    MsgMap_Type m ≠ didDocReq ∧ MsgMap_Type m ≠ registerRouteReq.
Proof.
  assert (∀ r w1 ops, handled o msg w r w1 →
    trace w1 = trace w ++ ops → replies ops = [] →
    match r with Ok m => MsgMap_Type m = respType (msg_Type msg) | Err _ => True end →
    ∃ ops m,
      trace (run (listen1 o msg) w).2 = trace w ++ ops ++ [OpReplyTo (msg_ID msg) m] ∧
      replies ops = [] ∧ MsgMap_Type m = respType (msg_Type msg)) as Hgen.
  { intros r w1 ops H Ht Hr Hm. rewrite (listen1_handled _ _ _ _ _ H).
    exists ops. destruct r as [m|err]; cbn.
    - exists m. destruct (ReplyTo _ _ _ _) as [[err|] e]; cbn;
        by rewrite Ht, <- app_assoc.
    - destruct (uuid_New (outside w1)) as [id e1]. cbn.
      eexists. destruct (ReplyTo _ _ _ _) as [[err'|] e]; cbn;
        by rewrite Ht, <- app_assoc. }
  assert (∃ ops m,
    trace (run (listen1 o msg) w).2 = trace w ++ ops ++ [OpReplyTo (msg_ID msg) m] ∧
    replies ops = [] ∧ MsgMap_Type m = respType (msg_Type msg))
    as (ops & m & Ht & Hr & Hm).
  { destruct (decide (msg_Type msg = didDocReq)) as [Hd|Hd].
    - destruct (run (handleDIDDocReq o msg) w) as [r w1] eqn:Hrun.
      destruct (proj1 (handlers_do_not_reply o msg w)) as (ops & Ht & Hr).
      rewrite Hrun in Ht. apply (Hgen r w1 ops); [by left|done|done|].
      destruct r as [m|]; [|done].
      apply handleDIDDocReq_Ok in Hrun as (? & ? & ? & ? & _ & _ & _ & -> & _).
      unfold respType. by rewrite decide_True.
    - destruct (decide (msg_Type msg = registerRouteReq)) as [Hc|Hc].
      + destruct (run (handleConnReq o msg) w) as [r w1] eqn:Hrun.
        destruct (proj2 (handlers_do_not_reply o msg w)) as (ops & Ht & Hr).
        rewrite Hrun in Ht. apply (Hgen r w1 ops); [by right|done|done|].
        destruct r as [m|]; [|done].
        apply handleConnReq_Ok in Hrun
          as (? & ? & ? & ? & ? & ? & _ & _ & _ & _ & -> & _).
        unfold respType. rewrite decide_False, decide_True; done.
      + exists []. unfold listen1, respType.
        rewrite !decide_False by done. cbn.
        destruct (uuid_New (outside w)) as [id e1]. cbn.
        eexists. by destruct (ReplyTo _ _ _ _) as [[err'|] e]. }
  exists ops, m. rewrite Hm. unfold respType. split_and!; try done.
  - intros ->. by rewrite decide_True.
  - intros ->. rewrite decide_False, decide_True; done.
  - destruct (decide _); [done|]. by destruct (decide _).
  - destruct (decide _); [done|]. by destruct (decide _).
Qed.

(** The store after [handleDIDDocReq]: as before, or with the one entry
    under the id of the request written. *)
Lemma handleDIDDocReq_txn (o : Service) (msg : DIDCommMsg) (w : World) :
  txn (run (handleDIDDocReq o msg) w).2 = txn w ∨
  ∃ v, txn (run (handleDIDDocReq o msg) w).2 = <[msg_ID msg := v]> (txn w).
Proof.
  rewrite handleDIDDocReq_run. cbn zeta.
  destruct (Create _ _ _ _) as [[newDidDoc|err] e1]; [|by left].
  destruct (Put_refused _ _ _ _) as [[err|] e2].
  { destruct (refused_Put_writes _); [right; by eexists|by left]. }
  right. exists (Doc_ID newDidDoc). by destruct (Doc_JSONBytes newDidDoc).
Qed.

Lemma handleDIDDocReq_frame_keys (o : Service) (msg : DIDCommMsg) (w : World)
    (k : string) :
  k ≠ msg_ID msg → txn (run (handleDIDDocReq o msg) w).2 !! k = txn w !! k.
Proof.
  intros Hk. destruct (handleDIDDocReq_txn o msg w) as [->|[v ->]]; [done|].
  by rewrite lookup_insert_ne.
Qed.

Lemma handleDIDDocReq_dom (o : Service) (msg : DIDCommMsg) (w : World) :
  dom (txn w) ⊆ dom (txn (run (handleDIDDocReq o msg) w).2).
Proof.
  destruct (handleDIDDocReq_txn o msg w) as [->|[v ->]]; [done|].
  rewrite dom_insert_L. apply union_subseteq_r.
Qed.

(** X6.  The document-request handler touches no entry of the store but
    the one under the id of the request, removes none, and logs
    nothing. *)
Theorem handleDIDDocReq_frame (o : Service) (msg : DIDCommMsg) (w : World) :
  let w' := (run (handleDIDDocReq o msg) w).2 in
  (∀ k, k ≠ msg_ID msg → txn w' !! k = txn w !! k) ∧
  dom (txn w) ⊆ dom (txn w') ∧
  logs w' = logs w.
Proof.
  cbn zeta. split_and!.
  - intros k. apply handleDIDDocReq_frame_keys.
  - apply handleDIDDocReq_dom.
  - rewrite handleDIDDocReq_run. cbn zeta.
    destruct (Create _ _ _ _) as [[newDidDoc|err] e1]; [|done].
    destruct (Put_refused _ _ _ _) as [[err|] e2];
      [by destruct (refused_Put_writes _)|].
    by destruct (Doc_JSONBytes newDidDoc).
Qed.

(** X7.  When the registry cannot create the document, the handler
    returns the registry's error under its own prefix and stops: the
    store is not asked and its contents are those of before.  When the
    store fails the [Put], the handler returns the store's error under
    its own prefix and stops: nothing is serialized; the handler undoes
    nothing, so the entry is in the store or not as the store left it,
    and every other entry is as before. *)
Theorem handleDIDDocReq_fails_before_commit (o : Service) (msg : DIDCommMsg)
    (w : World) :
  let create := OpCreate "peer" (peerOpts o) in
  (∀ err e1,
     Create (vdriRegistry o) "peer" (peerOpts o) (outside w) = (Err err, e1) →
     run (handleDIDDocReq o msg) w =
       (Err (fmt_Errorf_w "create new peer did : " err),
        World_step w [create] e1)) ∧
  (∀ newDidDoc e1 err e2,
     Create (vdriRegistry o) "peer" (peerOpts o) (outside w) = (Ok newDidDoc, e1) →
     Put_refused (tStore o) (msg_ID msg) (Doc_ID newDidDoc) e1 = (Some err, e2) →
     ∃ w',
       run (handleDIDDocReq o msg) w =
         (Err (fmt_Errorf_w "save txn data : " err), w') ∧
       trace w' = trace w ++ [create; OpPut (msg_ID msg) (Doc_ID newDidDoc)] ∧
       outside w' = e2 ∧
       logs w' = logs w ∧
       txn w' = (if refused_Put_writes (tStore o)
                 then <[msg_ID msg := Doc_ID newDidDoc]> (txn w)
                 else txn w) ∧
       ∀ k, k ≠ msg_ID msg → txn w' !! k = txn w !! k).
Proof.
  cbn zeta. split.
  - intros err e1 HC. rewrite handleDIDDocReq_run. cbn zeta. by rewrite HC.
  - intros d e1 err e2 HC HP. rewrite handleDIDDocReq_run. cbn zeta.
    rewrite HC, HP. eexists. split; [done|].
    destruct (refused_Put_writes _); cbn; split_and!; try done.
    intros k Hk. by rewrite lookup_insert_ne.
Qed.

(** X8.  When the mediator refuses the registration, the handler fails
    with the mediator's error under the prefix of the registration; the
    connection made just before is not undone, and the store is as
    before. *)
Theorem handleConnReq_mediator_failure (o : Service) (msg : DIDCommMsg)
    (w : World) (raw : bytes) (didDoc : Doc) (txnID connID : string)
    (E : error) (e1 e2 : ext) :
  validated msg = Some (raw, didDoc) →
  txn w !! msg_ParentThreadID msg = Some txnID →
  CreateConnection (didExchange o) txnID didDoc (outside w) = (Ok connID, e1) →
  Register (mediator o) connID e1 = (Some E, e2) →
  run (handleConnReq o msg) w =
    (Err (fmt_Errorf_w "route registration : " E),
     World_step w [OpDecode (msg_ID msg); OpParseDocument raw;
                   OpGet (msg_ParentThreadID msg);
                   OpCreateConnection txnID didDoc;
                   OpRegister connID] e2).
Proof.
  intros Hv Hk HC HR. rewrite (handleConnReq_validated _ _ _ _ _ Hv).
  cbn zeta. by rewrite Hk, HC, HR.
Qed.

(** The store after an iteration of the listener is the store after the
    handler of a document request, and the store of before for any other
    message. *)
Lemma listen1_txn (o : Service) (msg : DIDCommMsg) (w : World) :
  txn (run (listen1 o msg) w).2 =
  txn (if decide (msg_Type msg = didDocReq)
       then (run (handleDIDDocReq o msg) w).2 else w).
Proof.
  assert (∀ r w1, handled o msg w r w1 →
            txn (run (listen1 o msg) w).2 = txn w1) as Hgen.
  { intros r w1 H. rewrite (listen1_handled _ _ _ _ _ H).
    destruct r as [m|err]; cbn.
    - by destruct (ReplyTo _ _ _ _) as [[err|] e].
    - destruct (uuid_New (outside w1)) as [id e1]. cbn.
      by destruct (ReplyTo _ _ _ _) as [[err'|] e]. }
  destruct (decide (msg_Type msg = didDocReq)) as [Hd|Hd].
  - destruct (run (handleDIDDocReq o msg) w) as [r w1] eqn:Hrun.
    apply (Hgen r). by left.
  - destruct (decide (msg_Type msg = registerRouteReq)) as [Hc|Hc].
    + destruct (run (handleConnReq o msg) w) as [r w1] eqn:Hrun.
      rewrite (Hgen r w1) by by right.
      destruct (handleConnReq_world o msg w) as (rest & e & Hw & _).
      rewrite Hrun in Hw. cbn in Hw. by rewrite Hw.
    + unfold listen1. rewrite !decide_False by done. cbn.
      destruct (uuid_New (outside w)) as [id e1]. cbn.
      by destruct (ReplyTo _ _ _ _) as [[err'|] e].
Qed.

(** X9.  Over a whole channel the listener removes no entry of the
    store, and leaves every entry alone whose key is not the id of a
    document request of the channel. *)
Theorem didCommMsgListener_store (o : Service) (ch : list DIDCommMsg)
    (w : World) :
  let w' := (run (didCommMsgListener o ch) w).2 in
  dom (txn w) ⊆ dom (txn w') ∧
  ∀ k, k ∉ msg_ID <$> filter (λ msg, msg_Type msg = didDocReq) ch →
       txn w' !! k = txn w !! k.
Proof.
  cbn zeta. revert w. induction ch as [|msg ch IH]; intros w; [done|].
  rewrite didCommMsgListener_cons.
  destruct (IH (run (listen1 o msg) w).2) as [IHd IHk].
  rewrite filter_cons.
  pose proof (listen1_txn o msg w) as Ht.
  destruct (decide (msg_Type msg = didDocReq)) as [Hd|Hd].
  - split.
    + etrans; [|exact IHd]. rewrite Ht. apply handleDIDDocReq_dom.
    + intros k Hk. rewrite fmap_cons in Hk.
      apply not_elem_of_cons in Hk as [Hne Hk].
      rewrite (IHk k Hk), Ht. by apply handleDIDDocReq_frame_keys.
  - split.
    + by rewrite <- Ht.
    + intros k Hk. by rewrite IHk, Ht.
Qed.

(** X10.  Once the transaction store is set up, [New] registers the two
    request types with the registrar, in the order document request,
    registration request.  When the registrar accepts, the service is
    made of the collaborators and the endpoint of the configuration and
    of that store; when it refuses, [New] fails with the registrar's
    error under its own prefix. *)
Theorem New_after_store (config : Config) (w w1 : World) (txnStore : Store) :
  run (getTxnStore (TransientStore config)) w = (Ok txnStore, w1) →
  let svcs := [newMsgSvc "diddoc-req" didDocReq;
               newMsgSvc "register-route-req" registerRouteReq] in
  match Registrar_Register (MsgRegistrar config) svcs (outside w1) with
  | (None, e) =>
    run (New config) w =
      (Ok {| didExchange := DIDExchangeClient config;
             mediator := MediatorClient config;
             messenger := AriesMessenger config;
             vdriRegistry := VDRIRegistry config;
             endpoint := ServiceEndpoint config;
             tStore := txnStore |},
       World_step w1 [OpRegisterMsgSvc svcs] e)
  | (Some err, e) =>
    run (New config) w =
      (Err (fmt_Errorf_w "message service client: " err),
       World_step w1 [OpRegisterMsgSvc svcs] e)
  end.
Proof.
  intros Hs. cbn zeta. unfold New. rewrite run_bind, Hs. cbn.
  by destruct (Registrar_Register _ _ _) as [[err|] e].
Qed.



End Dispatch.

(** * Further properties of the relying-party DAO *)

Section RelyingPartyWrites.
Import db.
Context {DID : Type} (did_Parse : string → result DID)
        (DID_String : DID → string) (drv : Driver).

Lemma no_row_selected (rows : list Row) (id : string) :
  (∀ row, row ∈ rows → row_client_id row ≠ id) →
  filter (λ r, row_client_id r = id) rows = [].
Proof.
  induction rows as [|row rows IH]; intros H; [done|].
  rewrite filter_cons, decide_False.
  - apply IH. intros row' Hin. apply H. by right.
  - apply H. by left.
Qed.

(** X11.  Looking up a client id no row has fails, when the database
    answers, with [sql.ErrNoRows] under the prefix of the query, which
    [errors.Is] still finds; when the database is down the lookup fails
    with the database's error under the same prefix. *)
Theorem FindByClientID_not_found (r : RelyingParties) (id : string) :
  (down (RelyingParties_DB r) = None →
   (∀ row, row ∈ relying_party (RelyingParties_DB r) → row_client_id row ≠ id) →
   ∃ err,
     FindByClientID did_Parse r id = Err err ∧
     err = fmt_Errorf_w "failed to query relying_party by client_id : "
             (sentinel ErrNoRows) ∧
     errors_Is err ErrNoRows = true) ∧
  (∀ e, down (RelyingParties_DB r) = Some e →
     FindByClientID did_Parse r id =
       Err (fmt_Errorf_w "failed to query relying_party by client_id : " e)).
Proof.
  unfold FindByClientID, QueryRow_FindByClientID. split.
  - intros -> Hno. rewrite (no_row_selected _ _ Hno). by eexists.
  - by intros e ->.
Qed.

(** What [Insert] returns and leaves behind, by what the database and the
    driver decide. *)
Lemma Insert_run (r : RelyingParties) (rp : RelyingParty) (d : DID) :
  RP_DID rp = Some d →
  let rows := relying_party (RelyingParties_DB r) in
  let id := generate_id drv rows in
  let r' := {| RelyingParties_DB :=
                 {| relying_party :=
                      rows ++ [{| row_id := id; row_client_id := ClientID rp;
                                  row_did := DID_String d |}];
                    down := down (RelyingParties_DB r) |} |} in
  Insert DID_String drv r rp =
  match down (RelyingParties_DB r), refuses drv rows (ClientID rp) (DID_String d) with
  | Some err, _ | None, Some err =>
    Some (Some (fmt_Errorf_w "failed to insert relying party : " err), rp, r)
  | None, None =>
    match LastInsertId_err drv with
    | Some err =>
      Some (Some (fmt_Errorf_w "failed to retrieve auto generated id : " err),
            rp, r')
    | None =>
      Some (None, {| ID := id; ClientID := ClientID rp; RP_DID := Some d |}, r')
    end
  end.
Proof.
  intros Hd. cbn zeta. unfold Insert, Exec_Insert. rewrite Hd.
  destruct (down _) as [err|]; [done|].
  destruct (refuses _ _ _ _) as [err|]; [done|]. cbn.
  by destruct (LastInsertId_err drv).
Qed.

(** The lookup after a row was appended. *)
Lemma FindByClientID_appended (d : DB) (row : Row) (id : string) :
  down d = None →
  FindByClientID did_Parse
    {| RelyingParties_DB :=
         {| relying_party := relying_party d ++ [row]; down := None |} |} id =
  match filter (λ r, row_client_id r = id) (relying_party d) with
  | _ :: _ => FindByClientID did_Parse {| RelyingParties_DB := d |} id
  | [] =>
    if decide (row_client_id row = id)
    then match did_Parse (row_did row) with
         | Ok d' => Ok {| ID := row_id row; ClientID := row_client_id row;
                          RP_DID := Some d' |}
         | Err err =>
           Err (fmt_Errorf_w ("failed to parse rpDID " +:+ row_did row +:+ " : ")
                             err)
         end
    else FindByClientID did_Parse {| RelyingParties_DB := d |} id
  end.
Proof.
  intros Hup. unfold FindByClientID, QueryRow_FindByClientID. cbn.
  rewrite Hup, filter_app, filter_cons, filter_nil.
  destruct (filter _ (relying_party d)) as [|r0 l]; [|done]. cbn.
  by destruct (decide _).
Qed.

(** X12.  Round trip.  A relying party inserted under a client id no row
    had, whose DID is the parse of its own string, is what
    [FindByClientID] returns for that client id afterwards, the generated
    id included. *)
Theorem Insert_FindByClientID (r r' : RelyingParties) (rp rp' : RelyingParty)
    (d : DID) :
  Insert DID_String drv r rp = Some (None, rp', r') →
  RP_DID rp = Some d →
  did_Parse (DID_String d) = Ok d →
  (∀ row, row ∈ relying_party (RelyingParties_DB r) →
          row_client_id row ≠ ClientID rp) →
  FindByClientID did_Parse r' (ClientID rp) = Ok rp'.
Proof.
  intros HI Hd Hparse Hfresh. rewrite (Insert_run r rp d Hd) in HI.
  cbn zeta in HI.
  destruct (down _) as [err|] eqn:Hup; [done|].
  destruct (refuses _ _ _ _) as [err|]; [done|].
  destruct (LastInsertId_err drv) as [err|]; [done|].
  injection HI as <- <-.
  rewrite <- Hup at 1.
  pose proof (FindByClientID_appended (RelyingParties_DB r)) as Happ.
  destruct (RelyingParties_DB r) as [rows dn]. cbn in *. subst dn.
  rewrite Happ by done. cbn.
  rewrite (no_row_selected _ _ Hfresh), decide_True by done. cbn.
  by rewrite Hparse.
Qed.

(** X13.  Whatever [Insert] returns, the rows that were there stay, in
    their order, and the lookups of the other client ids answer as
    before. *)
Theorem Insert_frame (r r' : RelyingParties) (rp rp' : RelyingParty)
    (res : option error) :
  Insert DID_String drv r rp = Some (res, rp', r') →
  (∃ new, relying_party (RelyingParties_DB r') =
          relying_party (RelyingParties_DB r) ++ new) ∧
  ∀ id, id ≠ ClientID rp →
        FindByClientID did_Parse r' id = FindByClientID did_Parse r id.
Proof.
  intros HI. destruct (RP_DID rp) as [d|] eqn:Hd.
  2: { unfold Insert in HI. by rewrite Hd in HI. }
  rewrite (Insert_run r rp d Hd) in HI. cbn zeta in HI.
  destruct r as [[rows dn]]. cbn in *.
  destruct dn as [err|].
  { injection HI as <- <- <-. split; [exists []; by rewrite app_nil_r|done]. }
  destruct (refuses _ _ _ _) as [err|].
  { injection HI as <- <- <-. split; [exists []; by rewrite app_nil_r|done]. }
  assert (r' = {| RelyingParties_DB :=
                    {| relying_party :=
                         rows ++ [{| row_id := generate_id drv rows;
                                     row_client_id := ClientID rp;
                                     row_did := DID_String d |}];
                       down := None |} |}) as ->
    by (destruct (LastInsertId_err drv); by injection HI as <- <- <-).
  split; [by eexists|]. intros id Hid.
  rewrite (FindByClientID_appended {| relying_party := rows; down := None |})
    by done.
  cbn. destruct (filter _ rows); [|done]. by rewrite decide_False.
Qed.

(** X14.  [Insert] assigns an id to the relying party only when it
    returns no error, and then it is the id of the one row it appended,
    which holds the client id and the string of the DID; on an error the
    relying party is as before.  On a nil DID the call panics. *)
Theorem Insert_assigns_id (r : RelyingParties) (rp : RelyingParty) :
  (RP_DID rp = None → Insert DID_String drv r rp = None) ∧
  ∀ res rp' r', Insert DID_String drv r rp = Some (res, rp', r') →
    match res with
    | Some _ => rp' = rp
    | None =>
      ∃ d, RP_DID rp = Some d ∧
           rp' = {| ID := ID rp'; ClientID := ClientID rp; RP_DID := Some d |} ∧
           relying_party (RelyingParties_DB r') =
             relying_party (RelyingParties_DB r) ++
             [{| row_id := ID rp'; row_client_id := ClientID rp;
                 row_did := DID_String d |}]
    end.
Proof.
  destruct (RP_DID rp) as [d|] eqn:Hd.
  2: { unfold Insert. rewrite Hd. done. }
  rewrite (Insert_run r rp d Hd). cbn zeta. split; [done|].
  intros res rp' r'.
  destruct (down _); [by intros [= <- <- <-]|].
  destruct (refuses _ _ _ _); [by intros [= <- <- <-]|].
  destruct (LastInsertId_err drv); intros [= <- <- <-]; [done|].
  by exists d.
Qed.

(** X15.  When the driver cannot report the generated id, [Insert]
    returns an error although the row is written: the relying party keeps
    its id unassigned, and a later lookup of its client id finds the row
    with the generated id. *)
Theorem Insert_unreported_id (r : RelyingParties) (rp : RelyingParty)
    (d : DID) (e : error) :
  RP_DID rp = Some d →
  down (RelyingParties_DB r) = None →
  refuses drv (relying_party (RelyingParties_DB r)) (ClientID rp) (DID_String d)
    = None →
  LastInsertId_err drv = Some e →
  did_Parse (DID_String d) = Ok d →
  (∀ row, row ∈ relying_party (RelyingParties_DB r) →
          row_client_id row ≠ ClientID rp) →
  ∃ r',
    Insert DID_String drv r rp =
      Some (Some (fmt_Errorf_w "failed to retrieve auto generated id : " e),
            rp, r') ∧
    FindByClientID did_Parse r' (ClientID rp) =
      Ok {| ID := generate_id drv (relying_party (RelyingParties_DB r));
            ClientID := ClientID rp; RP_DID := Some d |}.
Proof.
  intros Hd Hup Href He Hparse Hfresh. rewrite (Insert_run r rp d Hd).
  cbn zeta. rewrite Hup, Href, He. eexists. split; [done|].
  rewrite (FindByClientID_appended (RelyingParties_DB r)) by done. cbn.
  rewrite (no_row_selected _ _ Hfresh), decide_True by done. cbn.
  by rewrite Hparse.
Qed.

End RelyingPartyWrites.

(** * The theorems at work on the concrete platform *)

Section Witnesses.
Import Fixture.
#[local] Existing Instance platform.

(** The first document request with id [r1] on the empty world. *)
Lemma handleDIDDocReq_success_witness :
  run (handleDIDDocReq svc (docRequest "r1")) world0
    = (Ok (docResp "uuid-1" "doc:did:peer:0"), world1) ∧
  ∃ newDidDoc docBytes id e1,
    Create (vdriRegistry svc) "peer" (peerOpts svc) (outside world0)
      = (Ok newDidDoc, e1) ∧
    Doc_JSONBytes newDidDoc = Ok docBytes ∧
    docResp "uuid-1" "doc:did:peer:0" = docResp id docBytes ∧
    MsgMap_Type (docResp "uuid-1" "doc:did:peer:0")
      = msgTypeBaseURI +:+ "/diddoc-resp" ∧
    MsgMap_Payload (docResp "uuid-1" "doc:did:peer:0")
      = DocPayload {| DIDDoc := docBytes |} ∧
    txn world1 !! "r1" = Some (Doc_ID newDidDoc).
Proof.
  assert (run (handleDIDDocReq svc (docRequest "r1")) world0
          = (Ok (docResp "uuid-1" "doc:did:peer:0"), world1)) as H
    by (vm_compute; reflexivity).
  split; [exact H|].
  exact (handleDIDDocReq_success svc (docRequest "r1") world0 world1 _ H).
Defined.

(** Two document requests with id [r1], then the registration against
    [r1]: the connection is made with the document of the second. *)
Lemma roundtrip_witness :
  txn world1 !! "r1" = Some "did:peer:0" ∧
  txn world2 !! "r1" = Some "did:peer:2" ∧
  run (handleConnReq svc reg) world2 =
    (Ok (MapConnResp {| ConnResp_ID := "uuid-6";
                        ConnResp_Type := registerRouteResp |}),
     World_step world2 [OpDecode "c1"; OpParseDocument "doc:did:peer:2";
                        OpGet "r1";
                        OpCreateConnection "did:peer:2" "did:peer:2";
                        OpRegister "conn-4"] 7).
Proof.
  destruct (roundtrip svc (docRequest "r1") reg world1 world2
              (docResp "uuid-3" "doc:did:peer:2") "did:peer:2" "did:peer:2"
              "doc:did:peer:2" "conn-4" 3 5 6)
    as (H1 & H2 & _ & _ & H5); try (vm_compute; reflexivity).
  split_and!; [|exact H1|exact H2].
  apply (H5 (docRequest "r1") world0 (docResp "uuid-1" "doc:did:peer:0")
            "did:peer:0" 1); vm_compute; reflexivity.
Defined.

(** A registration against a parent thread id nobody asked a document
    for. *)
Lemma handleConnReq_unknown_parent_witness :
  validated reg = Some ("doc:did:peer:2", "did:peer:2") ∧
  txn world0 !! "r1" = None ∧
  ∃ err,
    run (handleConnReq svc reg) world0 =
      (Err err,
       World_step world0 [OpDecode "c1"; OpParseDocument "doc:did:peer:2";
                          OpGet "r1"] 0) ∧
    err = fmt_Errorf_w "fetch txn data : " (sentinel ErrValueNotFound) ∧
    errors_Is err ErrValueNotFound = true.
Proof.
  split_and!; [vm_compute; reflexivity..|].
  apply (handleConnReq_unknown_parent svc reg world0
           "doc:did:peer:2" "did:peer:2"); vm_compute; reflexivity.
Defined.

(** The registration against [r1] when the connection component is
    down. *)
Lemma listen1_connection_error_witness :
  let w' := (run (listen1 svcDown reg) world1).2 in
  let err := fmt_Errorf_w "create connection : " (errors_New "no route to peer") in
  let reply := MapErrorResp
    {| ErrorResp_ID := "uuid-3";
       ErrorResp_Type := registerRouteResp;
       ErrorResp_Data :=
         Some {| ErrorMsg := "create connection : no route to peer" |} |} in
  trace w' = trace world1 ++ [OpDecode "c1"; OpParseDocument "doc:did:peer:2";
                              OpGet "r1";
                              OpCreateConnection "did:peer:0" "did:peer:2";
                              OpReplyTo "c1" reply] ∧
  MsgMap_Type reply = msgTypeBaseURI +:+ "/register-route-resp" ∧
  MsgMap_Type reply ≠ msg_Type reg ∧
  txn w' = txn world1 ∧
  outside w' = 4 ∧
  logs w' = logs world1 ++ [errLine reg err; successLine reg].
Proof.
  apply (listen1_connection_error svcDown reg world1 "doc:did:peer:2"
           "did:peer:2" "did:peer:0" (errors_New "no route to peer") 3);
    vm_compute; reflexivity.
Defined.

(** A trust ping, which the service does not handle, answered through a
    messenger that loses the reply. *)
Lemma listen1_unsupported_witness :
  let w' := (run (listen1 svcLost ping) world0).2 in
  let err := errors_New ("unsupported message service type : " +:+
                         "https://didcomm.org/trust_ping/1.0/ping") in
  let reply := MapErrorResp
    {| ErrorResp_ID := "uuid-0";
       ErrorResp_Type := "https://didcomm.org/trust_ping/1.0/ping";
       ErrorResp_Data :=
         Some {| ErrorMsg := "unsupported message service type : " +:+
                             "https://didcomm.org/trust_ping/1.0/ping" |} |} in
  trace w' = trace world0 ++ [OpReplyTo "p1" reply] ∧
  replies (drop (length (trace world0)) (trace w')) = [("p1", reply)] ∧
  txn w' = txn world0 ∧
  outside w' = 2 ∧
  logs w' = logs world0 ++
            [errLine ping err;
             sendReplyLine ping (errors_New "connection closed")].
Proof.
  apply (listen1_unsupported svcLost ping world0); vm_compute; discriminate.
Defined.

(** A document request served by a registry whose documents cannot be
    serialized. *)
Lemma handleDIDDocReq_no_rollback_witness :
  ∃ w',
    run (handleDIDDocReq svcUnserializable (docRequest "r1")) world0 =
      (Err (fmt_Errorf_w "marshal did doc : " (errors_New "empty document")), w') ∧
    trace w' = trace world0 ++ [OpCreate "peer" (peerOpts svcUnserializable);
                                OpPut "r1" ""; OpJSONBytes ""] ∧
    txn w' = <["r1" := ""]> (txn world0) ∧
    txn w' !! "r1" = Some "".
Proof.
  apply (handleDIDDocReq_no_rollback svcUnserializable (docRequest "r1") world0
           "" (errors_New "empty document") 1 1); vm_compute; reflexivity.
Defined.

(** One request per validation step that can fail. *)
Lemma handleConnReq_validation_order_witness :
  let stops msg ops err :=
    run (handleConnReq svc msg) world1 = (Err err, World_step world1 ops 2) in
  stops badDecode [OpDecode "c0"]
    (fmt_Errorf_w "parse didcomm message : "
       (errors_New "unexpected end of JSON input")) ∧
  stops (connRequest "c1" "" None) [OpDecode "c1"]
    (errors_New "parent thread id mandatory") ∧
  stops (connRequest "c1" "r1" None) [OpDecode "c1"]
    (errors_New "did document mandatory") ∧
  stops (connRequest "c1" "r1" (Some "garbage"))
    [OpDecode "c1"; OpParseDocument "garbage"]
    (fmt_Errorf_w "parse did doc : " (errors_New "not a document")).
Proof.
  cbn zeta. split_and!.
  - destruct (handleConnReq_validation_order svc badDecode world1) as (H & _).
    apply H. reflexivity.
  - destruct (handleConnReq_validation_order svc (connRequest "c1" "" None) world1)
      as (_ & H & _).
    eapply H; reflexivity.
  - destruct (handleConnReq_validation_order svc (connRequest "c1" "r1" None) world1)
      as (_ & _ & H & _).
    eapply H; [reflexivity|discriminate|reflexivity].
  - destruct (handleConnReq_validation_order svc
                (connRequest "c1" "r1" (Some "garbage")) world1)
      as (_ & _ & _ & H).
    eapply H; [reflexivity|discriminate|reflexivity|reflexivity].
Defined.

(** The three providers. *)
Lemma getTxnStore_tolerates_duplicate_witness :
  run (getTxnStore providerExisting) world0 =
    (Ok store, World_step world0 [OpCreateStore txnStoreName;
                                  OpOpenStore txnStoreName] 2) ∧
  run (New (config providerFull)) world0 =
    (Err (fmt_Errorf_w "store: " (errors_New "disk full")),
     World_step world0 [OpCreateStore txnStoreName] 1) ∧
  run (New (config providerLost)) world0 =
    (Err (fmt_Errorf_w "store: " (sentinel ErrStoreNotFound)),
     World_step world0 [OpCreateStore txnStoreName;
                        OpOpenStore txnStoreName] 2).
Proof.
  split_and!.
  - destruct (getTxnStore_tolerates_duplicate (config providerExisting) world0)
      as (H & _).
    apply (H (sentinel ErrDuplicateStore) 1 store 2); reflexivity.
  - destruct (getTxnStore_tolerates_duplicate (config providerFull) world0)
      as (_ & _ & H & _).
    apply (H (errors_New "disk full") 1); reflexivity.
  - destruct (getTxnStore_tolerates_duplicate (config providerLost) world0)
      as (_ & _ & _ & H).
    apply (H None 1 (sentinel ErrStoreNotFound) 2); reflexivity.
Defined.

(** The client whose stored DID parses, and the one whose does not. *)
Lemma FindByClientID_parses_witness :
  (∃ row d,
     db.QueryRow_FindByClientID (db.RelyingParties_DB rps) "client-a" = Ok row ∧
     row ∈ db.relying_party (db.RelyingParties_DB rps) ∧
     db.row_client_id row = "client-a" ∧
     parseDID (db.row_did row) = Ok d ∧
     {| db.ID := 1; db.ClientID := "client-a"; db.RP_DID := Some "did:example:a" |}
       = {| db.ID := db.row_id row; db.ClientID := db.row_client_id row;
            db.RP_DID := Some d |}) ∧
  db.FindByClientID parseDID rps "client-b" =
    Err (fmt_Errorf_w "failed to parse rpDID example:b : " (errors_New "invalid did")).
Proof.
  split.
  - apply (proj1 (FindByClientID_parses parseDID rps "client-a")). reflexivity.
  - apply (proj2 (FindByClientID_parses parseDID rps "client-b")
             {| db.row_id := 2; db.row_client_id := "client-b";
                db.row_did := "example:b" |} (errors_New "invalid did"));
      reflexivity.
Defined.

(** The listener on a whole handshake: two document requests with the
    same id, then the registration; three replies, and the connection is
    made with the document of the second request. *)
Example didCommMsgListener_handshake :
  let w := (run (didCommMsgListener svc
                   [docRequest "r1"; docRequest "r1"; reg]) world0).2 in
  replies (trace w) =
    [("r1", docResp "uuid-1" "doc:did:peer:0");
     ("r1", docResp "uuid-3" "doc:did:peer:2");
     ("c1", MapConnResp {| ConnResp_ID := "uuid-6";
                           ConnResp_Type := registerRouteResp |})] ∧
  OpCreateConnection "did:peer:2" "did:peer:2" ∈ trace w ∧
  txn w !! "r1" = Some "did:peer:2".
Proof.
  cbn zeta. split_and!; [vm_compute; reflexivity| |vm_compute; reflexivity].
  apply list_elem_of_lookup. exists 11. vm_compute. reflexivity.
Qed.

End Witnesses.

(** * The further properties at work on the concrete platform *)

Section MoreWitnesses.
Import Fixture.
#[local] Existing Instance platform.

(** The first document request, relayed. *)
Lemma listen1_relays_response_witness :
  let w' := (run (listen1 svc (docRequest "r1")) world0).2 in
  trace w' = trace world1 ++
             [OpReplyTo "r1" (docResp "uuid-1" "doc:did:peer:0")] ∧
  txn w' = txn world1 ∧
  outside w' = 2 ∧
  logs w' = logs world1 ++ [successLine (docRequest "r1")].
Proof.
  assert (handled svc (docRequest "r1") world0
            (Ok (docResp "uuid-1" "doc:did:peer:0")) world1) as H
    by (apply handled_DIDDocReq; [reflexivity|vm_compute; reflexivity]).
  destruct (listen1_relays_response svc (docRequest "r1") world0 world1 _ H)
    as (H1 & H2 & H3 & H4).
  by split_and!.
Defined.

(** The registration against [r1] when the connection component is down,
    relayed as an error. *)
Lemma listen1_relays_error_witness :
  let w1 := (run (handleConnReq svcDown reg) world1).2 in
  let w' := (run (listen1 svcDown reg) world1).2 in
  let err := fmt_Errorf_w "create connection : " (errors_New "no route to peer") in
  let reply := MapErrorResp
    {| ErrorResp_ID := "uuid-3";
       ErrorResp_Type := registerRouteResp;
       ErrorResp_Data :=
         Some {| ErrorMsg := "create connection : no route to peer" |} |} in
  trace w' = trace w1 ++ [OpReplyTo "c1" reply] ∧
  txn w' = txn w1 ∧
  logs w' = logs w1 ++ [errLine reg err; successLine reg].
Proof.
  cbn zeta.
  assert (handled svcDown reg world1
            (Err (fmt_Errorf_w "create connection : "
                    (errors_New "no route to peer")))
            (run (handleConnReq svcDown reg) world1).2) as H
    by (apply handled_ConnReq; [reflexivity|vm_compute; reflexivity]).
  destruct (listen1_relays_error svcDown reg world1 _ _ H)
    as (H1 & H2 & _ & _ & _ & H5).
  by split_and!.
Defined.

(** The registration that succeeds after two document requests. *)
Lemma handleConnReq_success_means_registered_witness :
  ∃ raw didDoc txnID connID e1 e2 ops,
    validated reg = Some (raw, didDoc) ∧
    txn world2 !! msg_ParentThreadID reg = Some txnID ∧
    CreateConnection (didExchange svc) txnID didDoc (outside world2)
      = (Ok connID, e1) ∧
    Register (mediator svc) connID e1 = (None, e2) ∧
    trace (run (handleConnReq svc reg) world2).2 =
      trace world2 ++ ops ++ [OpCreateConnection txnID didDoc;
                              OpRegister connID] ∧
    outside (run (handleConnReq svc reg) world2).2 = (uuid_New e2).2 ∧
    MsgMap_Type (MapConnResp {| ConnResp_ID := "uuid-6";
                                ConnResp_Type := registerRouteResp |})
      = registerRouteResp ∧
    MsgMap_Payload (MapConnResp {| ConnResp_ID := "uuid-6";
                                   ConnResp_Type := registerRouteResp |})
      = NoPayload.
Proof.
  apply (handleConnReq_success_means_registered svc reg world2).
  vm_compute. reflexivity.
Defined.

(** A registry that is down, and a store that reports an error after it
    has written. *)
Lemma handleDIDDocReq_fails_before_commit_witness :
  run (handleDIDDocReq svcNoRegistry (docRequest "r1")) world1 =
    (Err (fmt_Errorf_w "create new peer did : " (errors_New "vdr unavailable")),
     World_step world1 [OpCreate "peer" (peerOpts svcNoRegistry)] 3) ∧
  ∃ w',
    run (handleDIDDocReq svcStoreFull (docRequest "r9")) world1 =
      (Err (fmt_Errorf_w "save txn data : " (errors_New "store is full")), w') ∧
    trace w' = trace world1 ++ [OpCreate "peer" (peerOpts svcStoreFull);
                                OpPut "r9" "did:peer:2"] ∧
    outside w' = 4 ∧
    logs w' = logs world1 ∧
    txn w' = <["r9" := "did:peer:2"]> (txn world1) ∧
    ∀ k, k ≠ "r9" → txn w' !! k = txn world1 !! k.
Proof.
  split.
  - destruct (handleDIDDocReq_fails_before_commit svcNoRegistry
                (docRequest "r1") world1) as (H & _).
    apply (H (errors_New "vdr unavailable") 3). reflexivity.
  - destruct (handleDIDDocReq_fails_before_commit svcStoreFull
                (docRequest "r9") world1) as (_ & H).
    apply (H "did:peer:2" 3 (errors_New "store is full") 4); reflexivity.
Defined.

(** The registration that the mediator refuses. *)
Lemma handleConnReq_mediator_failure_witness :
  run (handleConnReq svcUnmediated reg) world2 =
    (Err (fmt_Errorf_w "route registration : " (errors_New "mediator unavailable")),
     World_step world2 [OpDecode "c1"; OpParseDocument "doc:did:peer:2";
                        OpGet "r1";
                        OpCreateConnection "did:peer:2" "did:peer:2";
                        OpRegister "conn-4"] 6).
Proof.
  apply (handleConnReq_mediator_failure svcUnmediated reg world2
           "doc:did:peer:2" "did:peer:2" "did:peer:2" "conn-4"
           (errors_New "mediator unavailable") 5 6); vm_compute; reflexivity.
Defined.

(** A registrar that accepts, and one that refuses. *)
Lemma New_after_store_witness :
  let svcs := [newMsgSvc "diddoc-req" didDocReq;
               newMsgSvc "register-route-req" registerRouteReq] in
  let w1 := World_step world0 [OpCreateStore txnStoreName;
                               OpOpenStore txnStoreName] 2 in
  run (New (config providerExisting)) world0 =
    (Ok svc, World_step w1 [OpRegisterMsgSvc svcs] 3) ∧
  run (New configUnregistered) world0 =
    (Err (fmt_Errorf_w "message service client: "
            (errors_New "service already registered")),
     World_step w1 [OpRegisterMsgSvc svcs] 3).
Proof.
  cbn zeta. split.
  - apply (New_after_store (config providerExisting) world0
             (World_step world0 [OpCreateStore txnStoreName;
                                 OpOpenStore txnStoreName] 2) store).
    reflexivity.
  - apply (New_after_store configUnregistered world0
             (World_step world0 [OpCreateStore txnStoreName;
                                 OpOpenStore txnStoreName] 2) store).
    reflexivity.
Defined.

(** A client id without a row, and a database that is down. *)
Lemma FindByClientID_not_found_witness :
  (∃ err,
     db.FindByClientID parseDID rps "client-z" = Err err ∧
     err = fmt_Errorf_w "failed to query relying_party by client_id : "
             (sentinel ErrNoRows) ∧
     errors_Is err ErrNoRows = true) ∧
  db.FindByClientID parseDID rpsDown "client-a" =
    Err (fmt_Errorf_w "failed to query relying_party by client_id : "
           (errors_New "connection refused")).
Proof.
  split.
  - apply (proj1 (FindByClientID_not_found parseDID rps "client-z"));
      [reflexivity|].
    intros row Hin. repeat (apply elem_of_cons in Hin as [->|Hin]; [done|]).
    by apply elem_of_nil in Hin.
  - apply (proj2 (FindByClientID_not_found parseDID rpsDown "client-a")).
    reflexivity.
Defined.

Lemma rps_without_client_c (row : db.Row) :
  row ∈ db.relying_party (db.RelyingParties_DB rps) →
  db.row_client_id row ≠ "client-c".
Proof.
  intros Hin. repeat (apply elem_of_cons in Hin as [->|Hin]; [done|]).
  by apply elem_of_nil in Hin.
Defined.

(** A third relying party, inserted and found again. *)
Lemma Insert_FindByClientID_witness :
  db.Insert (λ d : string, d) driver rps rpC =
    Some (None, {| db.ID := 3; db.ClientID := "client-c";
                   db.RP_DID := Some "did:example:c" |}, rpsC) ∧
  db.FindByClientID parseDID rpsC "client-c" =
    Ok {| db.ID := 3; db.ClientID := "client-c";
          db.RP_DID := Some "did:example:c" |}.
Proof.
  split; [reflexivity|].
  apply (Insert_FindByClientID parseDID (λ d : string, d) driver rps rpsC rpC
           _ "did:example:c"); [reflexivity..|].
  exact rps_without_client_c.
Defined.

(** The lookups of the other clients after that insertion. *)
Lemma Insert_frame_witness :
  (∃ new, db.relying_party (db.RelyingParties_DB rpsC) =
          db.relying_party (db.RelyingParties_DB rps) ++ new) ∧
  ∀ id, id ≠ "client-c" →
        db.FindByClientID parseDID rpsC id = db.FindByClientID parseDID rps id.
Proof.
  apply (Insert_frame parseDID (λ d : string, d) driver rps rpsC rpC
           {| db.ID := 3; db.ClientID := "client-c";
              db.RP_DID := Some "did:example:c" |} None).
  reflexivity.
Defined.

(** The same insertion through a driver that cannot report the id. *)
Lemma Insert_unreported_id_witness :
  ∃ r',
    db.Insert (λ d : string, d) driverSilent rps rpC =
      Some (Some (fmt_Errorf_w "failed to retrieve auto generated id : "
                    (errors_New "LastInsertId is not supported")), rpC, r') ∧
    db.FindByClientID parseDID r' "client-c" =
      Ok {| db.ID := 3; db.ClientID := "client-c";
            db.RP_DID := Some "did:example:c" |}.
Proof.
  apply (Insert_unreported_id parseDID (λ d : string, d) driverSilent rps rpC
           "did:example:c" (errors_New "LastInsertId is not supported"));
    [reflexivity..|].
  exact rps_without_client_c.
Defined.

End MoreWitnesses.
